(** * BrushTrack: the detection-driven session of [src/App.tsx]

    A shallow embedding of the [App] component: its hook state, the two
    interval handles it keeps in refs, the classifier calls it has in flight,
    and the handlers and effects that update them.  One [step] is one event
    of the browser's event loop (an interval firing, a promise settling, a
    click) followed by React's commit: the effects whose dependency
    [appState] changed are re-run before the next event is taken. *)

From Stdlib Require Import ZArith List Bool String Ascii Floats Lia.
Import ListNotations.

Set Warnings "-inexact-float".

Local Open Scope Z_scope.
Local Open Scope string_scope.

(** ** JavaScript values as the component reads them *)

Module Js.

(** A property read on the parsed response: [None] is [undefined]. *)
Definition truthy (b : option bool) : bool :=
  match b with
  | Some true => true
  | _ => false
  end.

(** [x < y] on numbers, with [x] possibly [undefined]: [undefined] converts
    to NaN and every comparison with NaN is false.  Numbers are IEEE 754
    doubles, which is what [float] is. *)
Definition lt (x : option float) (y : float) : bool :=
  match x with
  | Some v => PrimFloat.ltb v y
  | None => false
  end.

(** [!s] on a string: only the empty string is falsy. *)
Definition empty (s : string) : bool :=
  match s with
  | EmptyString => true
  | String _ _ => false
  end.

(** [s.split(sep)] for a one-character separator. *)
Fixpoint split_aux (sep : ascii) (s : string) (cur : string) : list string :=
  match s with
  | EmptyString => [cur]
  | String c rest =>
      if Ascii.eqb c sep
      then cur :: split_aux sep rest EmptyString
      else split_aux sep rest (cur ++ String c EmptyString)
  end.

Definition split (sep : ascii) (s : string) : list string :=
  split_aux sep s EmptyString.

End Js.

(** ** Types and constants *)

Inductive AppState : Type :=
| IDLE
| APPLYING_TOOTHPASTE
| BRUSHING
| FINISHED
| ERROR.

Definition AppState_eqb (a b : AppState) : bool :=
  match a, b with
  | IDLE, IDLE
  | APPLYING_TOOTHPASTE, APPLYING_TOOTHPASTE
  | BRUSHING, BRUSHING
  | FINISHED, FINISHED
  | ERROR, ERROR => true
  | _, _ => false
  end.

(** The interface declares five fields; the value is whatever [JSON.parse]
    returned, cast without validation, so each field is either present with
    its declared type or absent. *)
Record DetectionResult : Type := mkDetectionResult {
  isApplyingToothpaste : option bool;
  isBrushInMouth : option bool;
  isBrushing : option bool;
  confidence : option float;
  reasoning : option string
}.

Definition ANALYSIS_INTERVAL : Z := 3000.
Definition BRUSHING_REQUIRED_TIME : Z := 10.
Definition CONFIDENCE_GATE : float := 0.4%float.

(** ** The component *)

(** A pending [generateContent] call: the state interpolated into its prompt
    and the frame sent with it. *)
Record Request : Type := mkRequest {
  promptState : AppState;
  inlineData : string
}.

Record Session : Type := mkSession {
  (* useState *)
  appState : AppState;
  isAnalyzing : bool;
  brushingTime : Z;
  error : option string;
  statusMessage : string;
  (* useRef: whether the handle stored in the ref is a live interval *)
  intervalRef : bool;
  brushingTimerRef : bool;
  (* promises awaited inside analyzeFrame, oldest first *)
  inFlight : list Request
}.

Definition setAppState (a : AppState) (s : Session) : Session :=
  mkSession a (isAnalyzing s) (brushingTime s) (error s) (statusMessage s)
            (intervalRef s) (brushingTimerRef s) (inFlight s).

Definition setIsAnalyzing (b : bool) (s : Session) : Session :=
  mkSession (appState s) b (brushingTime s) (error s) (statusMessage s)
            (intervalRef s) (brushingTimerRef s) (inFlight s).

Definition setBrushingTime (t : Z) (s : Session) : Session :=
  mkSession (appState s) (isAnalyzing s) t (error s) (statusMessage s)
            (intervalRef s) (brushingTimerRef s) (inFlight s).

Definition setError (e : option string) (s : Session) : Session :=
  mkSession (appState s) (isAnalyzing s) (brushingTime s) e (statusMessage s)
            (intervalRef s) (brushingTimerRef s) (inFlight s).

Definition setStatusMessage (m : string) (s : Session) : Session :=
  mkSession (appState s) (isAnalyzing s) (brushingTime s) (error s) m
            (intervalRef s) (brushingTimerRef s) (inFlight s).

Definition setIntervalRef (live : bool) (s : Session) : Session :=
  mkSession (appState s) (isAnalyzing s) (brushingTime s) (error s)
            (statusMessage s) live (brushingTimerRef s) (inFlight s).

Definition setBrushingTimerRef (live : bool) (s : Session) : Session :=
  mkSession (appState s) (isAnalyzing s) (brushingTime s) (error s)
            (statusMessage s) (intervalRef s) live (inFlight s).

Definition setInFlight (l : list Request) (s : Session) : Session :=
  mkSession (appState s) (isAnalyzing s) (brushingTime s) (error s)
            (statusMessage s) (intervalRef s) (brushingTimerRef s) l.

(** The hooks' initial values, before any effect has run. *)
Definition initial : Session :=
  mkSession IDLE false 0 None "Ready to start" false false [].

(** ** Camera *)

Definition CAMERA_ERROR : string :=
  "Could not access camera. Please ensure permissions are granted.".

(** [startCamera] once [getUserMedia] has settled. *)
Definition startCamera (granted : bool) (s : Session) : Session :=
  if granted
  then setError None (setAppState IDLE s)
  else setAppState ERROR (setError (Some CAMERA_ERROR) s).

(** ** Frame source *)

Record Video : Type := mkVideo {
  videoWidth : Z;
  videoHeight : Z
}.

(** [getContext2d]: whether [getContext('2d')] yields a context;
    [toDataURL]: the data URL the canvas encodes to once the frame is drawn. *)
Record Canvas : Type := mkCanvas {
  getContext2d : bool;
  toDataURL : string
}.

Record FrameSource : Type := mkFrameSource {
  videoRef : option Video;
  canvasRef : option Canvas
}.

(** [None] stands for both [null] and the [undefined] that [split(',')[1]]
    gives on a URL without a comma; the caller only tests the result with
    [!].  Sizing the canvas to the video and drawing the frame change the
    canvas, not the session, and are left to [toDataURL]. *)
Definition captureFrame (cam : FrameSource) : option string :=
  match videoRef cam, canvasRef cam with
  | Some _, Some canvas =>
      if getContext2d canvas
      then nth_error (Js.split "," (toDataURL canvas)) 1
      else None
  | _, _ => None
  end.

(** ** Analysis *)

Definition TOOTHPASTE_MESSAGE : string :=
  "Toothpaste detected! Now put the brush in your mouth.".
Definition BRUSHING_MESSAGE : string :=
  "Brushing detected! Keep going for 10 seconds.".
Definition FINISHED_MESSAGE : string :=
  "Great job! Here is your reward.".
Definition READY_MESSAGE : string :=
  "Ready to start".

(** The updater passed to [setAppState] reads the state current when the
    update is applied ([prev]), not the one captured by [analyzeFrame]. *)
Definition handleDetectionResult (result : DetectionResult) (s : Session)
  : Session :=
  if Js.lt (confidence result) CONFIDENCE_GATE then s
  else
    match appState s with
    | IDLE =>
        if Js.truthy (isApplyingToothpaste result)
        then setAppState APPLYING_TOOTHPASTE
               (setStatusMessage TOOTHPASTE_MESSAGE s)
        else s
    | APPLYING_TOOTHPASTE =>
        if Js.truthy (isBrushInMouth result)
        then setAppState BRUSHING (setStatusMessage BRUSHING_MESSAGE s)
        else s
    | BRUSHING =>
        (* the branch on !isBrushing && !isBrushInMouth has an empty body *)
        s
    | FINISHED | ERROR => s
    end.

(** How an awaited classifier call ends. *)
Inductive ClassifierOutcome : Type :=
| TransportError                 (* generateContent rejects *)
| MalformedJson                  (* JSON.parse throws *)
| JsonNull                       (* parses to null: reading .confidence throws *)
| EmptyText                      (* response.text is falsy: '{}' is parsed *)
| Parsed (r : DetectionResult).  (* any other JSON value, through its reads *)

Definition emptyObject : DetectionResult :=
  mkDetectionResult None None None None None.

(** The part of [analyzeFrame] after the [await]: try, catch, finally. *)
Definition settle (o : ClassifierOutcome) (s : Session) : Session :=
  match o with
  | TransportError | MalformedJson | JsonNull => setIsAnalyzing false s
  | EmptyText => setIsAnalyzing false (handleDetectionResult emptyObject s)
  | Parsed r => setIsAnalyzing false (handleDetectionResult r s)
  end.

(** The part of [analyzeFrame] up to the [await]. *)
Definition analyzeFrame (cam : FrameSource) (s : Session) : Session :=
  match appState s with
  | FINISHED | ERROR => s
  | _ =>
      match captureFrame cam with
      | None => s
      | Some base64Image =>
          if Js.empty base64Image then s
          else
            let s1 := setIsAnalyzing true s in
            setInFlight (inFlight s1 ++ [mkRequest (appState s1) base64Image]) s1
      end
  end.

(** ** Timer *)

(** The interval callback of the timer effect. *)
Definition brushingTick (s : Session) : Session :=
  let prev := brushingTime s in
  if prev >=? BRUSHING_REQUIRED_TIME
  then setBrushingTimerRef false
         (setStatusMessage FINISHED_MESSAGE (setAppState FINISHED s))
  else setBrushingTime (prev + 1) s.

(** The timer effect for a changed [appState]: cleanup of the previous
    run, then the body. *)
Definition timerEffect (s : Session) : Session :=
  let s0 := setBrushingTimerRef false s in
  match appState s0 with
  | BRUSHING => setBrushingTimerRef true s0
  | FINISHED => setBrushingTimerRef false s0
  | _ => setBrushingTime 0 (setBrushingTimerRef false s0)
  end.

(** The main-loop effect, likewise. *)
Definition mainLoopEffect (s : Session) : Session :=
  let s0 := setIntervalRef false s in
  match appState s0 with
  | FINISHED | ERROR => setIntervalRef false s0
  | _ => setIntervalRef true s0
  end.

Definition effects (s : Session) : Session :=
  mainLoopEffect (timerEffect s).

(** Both effects depend on [appState] ([analyzeFrame] is re-created exactly
    when it changes), so they re-run only when it differs from the value of
    the previous render. *)
Definition commit (prev : AppState) (s : Session) : Session :=
  if AppState_eqb prev (appState s) then s else effects s.

Definition reset (s : Session) : Session :=
  setError None
    (setStatusMessage READY_MESSAGE (setBrushingTime 0 (setAppState IDLE s))).

(** ** Events *)

Inductive Event : Type :=
| PollTick (cam : FrameSource)             (* intervalRef fires analyzeFrame *)
| Settle (i : nat) (o : ClassifierOutcome) (* the i-th pending call settles *)
| TimerTick                                (* brushingTimerRef fires *)
| ClickReset                               (* the restart button *)
| Camera (granted : bool).                 (* getUserMedia settles *)

Fixpoint remove_nth {A : Type} (i : nat) (l : list A) : list A :=
  match l, i with
  | [], _ => []
  | _ :: tl, O => tl
  | x :: tl, S j => x :: remove_nth j tl
  end.

Definition handle (e : Event) (s : Session) : Session :=
  match e with
  | PollTick cam => if intervalRef s then analyzeFrame cam s else s
  | Settle i o =>
      match nth_error (inFlight s) i with
      | Some _ => settle o (setInFlight (remove_nth i (inFlight s)) s)
      | None => s
      end
  | TimerTick => if brushingTimerRef s then brushingTick s else s
  | ClickReset => reset s
  | Camera granted => startCamera granted s
  end.

Definition step (e : Event) (s : Session) : Session :=
  commit (appState s) (handle e s).

Fixpoint run (es : list Event) (s : Session) : Session :=
  match es with
  | [] => s
  | e :: rest => run rest (step e s)
  end.

(** The component after its first render and the mount effects. *)
Definition mounted : Session := effects initial.

Inductive reachable : Session -> Prop :=
| reach_mounted : reachable mounted
| reach_step : forall e s, reachable s -> reachable (step e s).

(** [n] firings of the brushing timer in a row. *)
Definition ticks (n : nat) : list Event := repeat TimerTick n.

(** ** Sample inputs *)

(** A camera with a stream and one without (a 0x0 canvas encodes to
    ["data:,"]), and a page whose canvas gives no 2D context. *)
Definition liveCamera : FrameSource :=
  mkFrameSource (Some (mkVideo 640 480))
                (Some (mkCanvas true "data:image/jpeg;base64,/9j/4AAQSkZJRg")).
Definition blankCamera : FrameSource :=
  mkFrameSource (Some (mkVideo 0 0)) (Some (mkCanvas true "data:,")).
Definition noContext : FrameSource :=
  mkFrameSource (Some (mkVideo 640 480))
                (Some (mkCanvas false "data:image/jpeg;base64,/9j/4AAQSkZJRg")).

(** [{isApplyingToothpaste: true, ..., confidence: 0.9}] and the like. *)
Definition sawToothpaste : DetectionResult :=
  mkDetectionResult (Some true) (Some false) (Some false)
                    (Some 0.9%float) (Some "paste on brush").
Definition sawBrushInMouth : DetectionResult :=
  mkDetectionResult (Some false) (Some true) (Some true)
                    (Some 0.8%float) (Some "brush in mouth").
Definition unsure : DetectionResult :=
  mkDetectionResult (Some true) (Some true) (Some true)
                    (Some 0.39%float) (Some "blurry").
(** [{"isApplyingToothpaste": true}]: the other four fields are missing. *)
Definition onlyToothpaste : DetectionResult :=
  mkDetectionResult (Some true) None None None None.

(** The same result with its confidence replaced. *)
Definition withConfidence (c : float) (r : DetectionResult) : DetectionResult :=
  mkDetectionResult (isApplyingToothpaste r) (isBrushInMouth r) (isBrushing r)
                    (Some c) (reasoning r).

(** Two polls go out from IDLE before either answer is back; the first
    answer reports toothpaste. *)
Definition overlappingPolls : list Event :=
  [PollTick liveCamera; PollTick liveCamera].
Definition firstAnswered : Session :=
  run (overlappingPolls ++ [Settle 0 (Parsed sawToothpaste)]) mounted.

(** A third poll was out as well: its answer is still pending when the
    second answer has moved the session on to BRUSHING. *)
Definition lateInBrushing : Session :=
  run [PollTick liveCamera; PollTick liveCamera; PollTick liveCamera;
       Settle 0 (Parsed sawToothpaste); Settle 0 (Parsed sawBrushInMouth)]
      mounted.

(** One poll is out from IDLE. *)
Definition onePending : Session := run [PollTick liveCamera] mounted.

(** A session that has just entered BRUSHING. *)
Definition startedBrushing : Session :=
  run [PollTick liveCamera; Settle 0 (Parsed sawToothpaste);
       PollTick liveCamera; Settle 0 (Parsed sawBrushInMouth)] mounted.

(** Eleven firings of the brushing timer later. *)
Definition finishedSession : Session := run (ticks 11) startedBrushing.

(** ** The invariant of the counter and the two interval handles *)

Definition wellFormed (s : Session) : Prop :=
  0 <= brushingTime s <= BRUSHING_REQUIRED_TIME /\
  (appState s = FINISHED -> brushingTime s = BRUSHING_REQUIRED_TIME) /\
  (appState s <> BRUSHING -> appState s <> FINISHED -> brushingTime s = 0) /\
  (brushingTimerRef s = true <-> appState s = BRUSHING) /\
  (intervalRef s = true <-> appState s <> FINISHED /\ appState s <> ERROR).

(** ** Transitions of the state *)

(** The changes of [appState] the handlers can make, with the event that
    makes each. *)
Inductive edge : AppState -> Event -> AppState -> Prop :=
| edge_toothpaste : forall i result,
    Js.lt (confidence result) CONFIDENCE_GATE = false ->
    Js.truthy (isApplyingToothpaste result) = true ->
    edge IDLE (Settle i (Parsed result)) APPLYING_TOOTHPASTE
| edge_brush_in_mouth : forall i result,
    Js.lt (confidence result) CONFIDENCE_GATE = false ->
    Js.truthy (isBrushInMouth result) = true ->
    edge APPLYING_TOOTHPASTE (Settle i (Parsed result)) BRUSHING
| edge_countdown : edge BRUSHING TimerTick FINISHED
| edge_reset : forall a, a <> IDLE -> edge a ClickReset IDLE
| edge_camera_granted : forall a, a <> IDLE -> edge a (Camera true) IDLE
| edge_camera_denied : forall a, a <> ERROR -> edge a (Camera false) ERROR.

(** ** What the session keeps besides the counter *)

(** A request as [analyzeFrame] sends them: never from a terminal state and
    never with an empty frame. *)
Definition sendable (req : Request) : Prop :=
  promptState req <> FINISHED /\ promptState req <> ERROR /\
  inlineData req <> "".

Definition consistent (s : Session) : Prop :=
  (appState s = ERROR -> error s = Some CAMERA_ERROR) /\
  (appState s <> ERROR -> error s = None) /\
  (appState s = APPLYING_TOOTHPASTE -> statusMessage s = TOOTHPASTE_MESSAGE) /\
  (appState s = BRUSHING -> statusMessage s = BRUSHING_MESSAGE) /\
  (appState s = FINISHED -> statusMessage s = FINISHED_MESSAGE) /\
  (isAnalyzing s = true -> inFlight s <> []) /\
  Forall sendable (inFlight s).

(** The firings of the brushing timer and the settled calls in a run. *)
Definition isTimerTick (e : Event) : bool :=
  match e with
  | TimerTick => true
  | _ => false
  end.

Definition isSettle (e : Event) : bool :=
  match e with
  | Settle _ _ => true
  | _ => false
  end.

Definition timerTicks (es : list Event) : nat :=
  List.length (filter isTimerTick es).

Definition settlements (es : list Event) : nat :=
  List.length (filter isSettle es).

(** How far a state is along the mission. *)
Definition progress (a : AppState) : nat :=
  match a with
  | IDLE | ERROR => 0
  | APPLYING_TOOTHPASTE => 1
  | BRUSHING | FINISHED => 2
  end.

(** What a run has cost so far: [n] timer firings and [k] settled calls. *)
Definition earned (s : Session) (n k : nat) : Prop :=
  brushingTime s <= Z.of_nat n /\
  (appState s = FINISHED -> BRUSHING_REQUIRED_TIME + 1 <= Z.of_nat n) /\
  (progress (appState s) <= k)%nat.

(** The events of an uninterrupted attempt from a session with [n] calls
    pending: a poll answered with [r1], a poll answered with [r2], then
    [k] firings of the brushing timer. *)
Definition attempt (cam : FrameSource) (n : nat) (r1 r2 : DetectionResult)
                   (k : nat) : list Event :=
  ([PollTick cam; Settle n (Parsed r1); PollTick cam; Settle n (Parsed r2)]
     ++ ticks k)%list.

(** ** Data URLs *)

Fixpoint hasComma (s : string) : bool :=
  match s with
  | EmptyString => false
  | String c rest => Ascii.eqb c "," || hasComma rest
  end.

(** [header + "," + payload]. *)
Definition dataURL (header payload : string) : string :=
  header ++ String "," payload.

(** ** Rendering *)

(** The two hooks the session logic never reads. *)
Record Ui : Type := mkUi {
  qrContent : string;
  showQrInput : bool
}.

Definition initialUi : Ui := mkUi "https://google.com" false.

Definition setQrContent (q : string) (ui : Ui) : Ui :=
  mkUi q (showQrInput ui).

(** The header button: [setShowQrInput(!showQrInput)]. *)
Definition toggleQrInput (ui : Ui) : Ui :=
  mkUi (qrContent ui) (negb (showQrInput ui)).

Record StepProps : Type := mkStepProps {
  num : string;
  label : string;
  desc : string;
  active : bool;
  done : bool
}.

Inductive Marker : Type :=
| CheckMark
| Number (n : string).

(** What [Step] draws: full opacity when [active], the check mark instead of
    the number and the label struck through when [done], the description
    below the label. *)
Record StepView : Type := mkStepView {
  highlighted : bool;
  marker : Marker;
  struckThrough : bool;
  labelText : string;
  descText : string
}.

Definition Step (p : StepProps) : StepView :=
  mkStepView (active p)
             (if done p then CheckMark else Number (num p))
             (done p)
             (label p)
             (desc p).

Inductive StatusIcon : Type :=
| IconCheckCircle
| IconAlertCircle
| IconCamera.

(** The parts of the JSX that depend on state; [None] and [false] are parts
    that are not rendered. *)
Record View : Type := mkView {
  analyzingOverlay : bool;
  remainingOverlay : option Z;
  statusIcon : StatusIcon;
  statusText : string;
  restartButton : bool;
  qrInput : option string;
  missionSteps : list StepView;
  rewardCard : option string;
  errorToast : option string
}.

Definition isState (a b : AppState) : bool := AppState_eqb a b.

Definition stepProps (a : AppState) : list StepProps :=
  [ mkStepProps "01" "Apply Toothpaste"
                "Red & Blue paste on Green & Purple brush"
                (isState a IDLE || isState a APPLYING_TOOTHPASTE)
                (negb (isState a IDLE) && negb (isState a ERROR));
    mkStepProps "02" "Start Brushing" "Put the brush in your mouth"
                (isState a APPLYING_TOOTHPASTE || isState a BRUSHING)
                (isState a FINISHED);
    mkStepProps "03" "10s Brushing" "Keep going until the timer ends"
                (isState a BRUSHING)
                (isState a FINISHED) ].

Definition render (s : Session) (ui : Ui) : View :=
  mkView
    (isAnalyzing s)
    (if isState (appState s) BRUSHING
     then Some (BRUSHING_REQUIRED_TIME - brushingTime s) else None)
    (match appState s with
     | FINISHED => IconCheckCircle
     | ERROR => IconAlertCircle
     | _ => IconCamera
     end)
    (statusMessage s)
    (isState (appState s) FINISHED)
    (if showQrInput ui then Some (qrContent ui) else None)
    (map Step (stepProps (appState s)))
    (if isState (appState s) FINISHED then Some (qrContent ui) else None)
    (match error s with
     | Some e => if Js.empty e then None else Some e
     | None => None
     end).

(** ** The camera stream *)

(** Streams are named by the order [getUserMedia] granted them;
    [liveStreams] are those whose tracks have not been stopped. *)
Record Media : Type := mkMedia {
  liveStreams : list nat;
  streamRef : option nat;
  srcObject : option nat
}.

Definition noMedia : Media := mkMedia [] None None.

(** The try-branch of [startCamera] for the stream [getUserMedia] resolved
    with: it is stored only when the video element is there. *)
Definition attachStream (videoPresent : bool) (stream : nat) (m : Media)
  : Media :=
  if videoPresent
  then mkMedia (stream :: liveStreams m) (Some stream) (Some stream)
  else mkMedia (stream :: liveStreams m) (streamRef m) (srcObject m).

Definition stopCamera (m : Media) : Media :=
  match streamRef m with
  | Some stream =>
      mkMedia (filter (fun k => negb (Nat.eqb k stream)) (liveStreams m))
              (streamRef m) (srcObject m)
  | None => m
  end.

(** ** The confidence gate on doubles *)

Section Gate.

Local Open Scope float_scope.

Lemma gate_spec_float :
  Prim2SF CONFIDENCE_GATE = S754_finite false 7205759403792794 (-54).
Proof. vm_compute. reflexivity. Qed.

(** On doubles, [0.4 <= c] excludes [c < 0.4]. *)
Lemma gate_leb_not_ltb (c : float) :
  (CONFIDENCE_GATE <=? c) = true -> (c <? CONFIDENCE_GATE) = false.
Proof.
  rewrite leb_spec, ltb_spec, gate_spec_float.
  unfold SFleb, SFltb.
  destruct (Prim2SF c) as [sg | sg | | sg m e]; cbn [SFcompare];
    try destruct sg; try discriminate; try reflexivity.
  rewrite (Z.compare_antisym e (-54)).
  destruct (e ?= -54)%Z; cbn [CompOpp]; try discriminate; try reflexivity.
  change PosDef.Pos.compare_cont with Pos.compare_cont.
  rewrite (ZC4 m 7205759403792794).
  destruct (Pos.compare_cont Eq 7205759403792794 m); cbn [CompOpp];
    try discriminate; reflexivity.
Qed.

(** A confidence of at least 0.4 passes the test of [handleDetectionResult]. *)
Lemma gate_open (r : DetectionResult) (c : float) :
  confidence r = Some c -> (CONFIDENCE_GATE <=? c) = true ->
  Js.lt (confidence r) CONFIDENCE_GATE = false.
Proof.
  intros Hc Hle. rewrite Hc. cbn [Js.lt]. now apply gate_leb_not_ltb.
Qed.

End Gate.

(** ** Basic facts about the handlers and the effects *)

Lemma AppState_eqb_refl (a : AppState) : AppState_eqb a a = true.
Proof. now destruct a. Qed.

Lemma AppState_eqb_eq (a b : AppState) : AppState_eqb a b = true <-> a = b.
Proof. destruct a, b; cbn; split; intro H; congruence. Qed.

Lemma appState_effects (s : Session) : appState (effects s) = appState s.
Proof. destruct s as [a ? ? ? ? ? ? ?]. now destruct a. Qed.

Lemma appState_commit (prev : AppState) (s : Session) :
  appState (commit prev s) = appState s.
Proof.
  unfold commit. destruct (AppState_eqb prev (appState s)); auto using appState_effects.
Qed.

Lemma commit_unchanged (s s' : Session) :
  appState s' = appState s -> commit (appState s) s' = s'.
Proof. intros H. unfold commit. now rewrite H, AppState_eqb_refl. Qed.

Lemma appState_analyzeFrame (cam : FrameSource) (s : Session) :
  appState (analyzeFrame cam s) = appState s.
Proof.
  unfold analyzeFrame.
  destruct (appState s) eqn:Ha; auto;
    destruct (captureFrame cam) as [img |]; auto;
    destruct (Js.empty img); auto.
Qed.

Lemma handleDetectionResult_sticky (result : DetectionResult) (s : Session) :
  appState s = BRUSHING \/ appState s = FINISHED \/ appState s = ERROR ->
  handleDetectionResult result s = s.
Proof.
  intros H. unfold handleDetectionResult.
  destruct (Js.lt (confidence result) CONFIDENCE_GATE); auto.
  destruct H as [H | [H | H]]; now rewrite H.
Qed.

(** What [handleDetectionResult] never touches. *)
Lemma handleDetectionResult_frame (result : DetectionResult) (s : Session) :
  let s' := handleDetectionResult result s in
  brushingTime s' = brushingTime s /\ error s' = error s /\
  isAnalyzing s' = isAnalyzing s /\ inFlight s' = inFlight s /\
  intervalRef s' = intervalRef s /\ brushingTimerRef s' = brushingTimerRef s.
Proof.
  unfold handleDetectionResult.
  destruct (Js.lt (confidence result) CONFIDENCE_GATE); cbn; auto 10.
  destruct (appState s); cbn; auto 10;
    match goal with |- context [Js.truthy ?b] => destruct (Js.truthy b) end;
    cbn; auto 10.
Qed.

(** [settle] is [handleDetectionResult] (or nothing) followed by lowering
    the analyzing flag. *)
Lemma settle_sticky (o : ClassifierOutcome) (s : Session) :
  appState s = BRUSHING \/ appState s = FINISHED \/ appState s = ERROR ->
  settle o s = setIsAnalyzing false s.
Proof.
  intros H. destruct o; cbn [settle]; auto;
    now rewrite handleDetectionResult_sticky.
Qed.

(** ** The detection interpreter *)

(** C4: a result whose confidence is below 0.4 is discarded whatever its
    boolean fields and whatever the current state: [handleDetectionResult]
    returns the session as it was, and the settled call changes neither the
    state nor the status message. *)
Theorem low_confidence_discarded (result : DetectionResult) (s : Session) :
  Js.lt (confidence result) CONFIDENCE_GATE = true ->
  handleDetectionResult result s = s /\
  appState (settle (Parsed result) s) = appState s /\
  statusMessage (settle (Parsed result) s) = statusMessage s /\
  brushingTime (settle (Parsed result) s) = brushingTime s.
Proof.
  intros Hlow.
  assert (H : handleDetectionResult result s = s).
  { unfold handleDetectionResult. now rewrite Hlow. }
  cbn [settle]. rewrite H. auto.
Qed.

Lemma low_confidence_discarded_witness :
  handleDetectionResult unsure mounted = mounted /\
  appState (settle (Parsed unsure) mounted) = appState mounted /\
  statusMessage (settle (Parsed unsure) mounted) = statusMessage mounted /\
  brushingTime (settle (Parsed unsure) mounted) = brushingTime mounted.
Proof. exact (low_confidence_discarded unsure mounted eq_refl). Defined.

(** C5: with a confidence of at least 0.4, IDLE moves exactly when
    [isApplyingToothpaste] is true, to APPLYING_TOOTHPASTE with the
    toothpaste message, and APPLYING_TOOTHPASTE moves exactly when
    [isBrushInMouth] is true, to BRUSHING with the brushing message; in every
    other case the session is returned as it was. *)
Theorem confident_transitions
  (result : DetectionResult) (c : float) (s : Session) :
  confidence result = Some c ->
  (CONFIDENCE_GATE <=? c)%float = true ->
  (appState s = IDLE ->
     (isApplyingToothpaste result = Some true ->
        appState (handleDetectionResult result s) = APPLYING_TOOTHPASTE /\
        statusMessage (handleDetectionResult result s) = TOOTHPASTE_MESSAGE) /\
     (isApplyingToothpaste result <> Some true ->
        handleDetectionResult result s = s)) /\
  (appState s = APPLYING_TOOTHPASTE ->
     (isBrushInMouth result = Some true ->
        appState (handleDetectionResult result s) = BRUSHING /\
        statusMessage (handleDetectionResult result s) = BRUSHING_MESSAGE) /\
     (isBrushInMouth result <> Some true ->
        handleDetectionResult result s = s)).
Proof.
  intros Hc Hge.
  pose proof (gate_open result c Hc Hge) as Hgate.
  unfold handleDetectionResult. rewrite Hgate.
  split; intros Hs; rewrite Hs; split; intros Hb.
  - rewrite Hb. cbn. auto.
  - destruct (isApplyingToothpaste result) as [[|]|]; cbn; congruence.
  - rewrite Hb. cbn. auto.
  - destruct (isBrushInMouth result) as [[|]|]; cbn; congruence.
Qed.

Lemma confident_transitions_witness :
  (appState (handleDetectionResult sawToothpaste mounted)
     = APPLYING_TOOTHPASTE /\
   statusMessage (handleDetectionResult sawToothpaste mounted)
     = TOOTHPASTE_MESSAGE) /\
  (appState (handleDetectionResult sawBrushInMouth firstAnswered) = BRUSHING /\
   statusMessage (handleDetectionResult sawBrushInMouth firstAnswered)
     = BRUSHING_MESSAGE) /\
  handleDetectionResult sawToothpaste firstAnswered = firstAnswered.
Proof.
  pose (atIdle :=
          confident_transitions sawToothpaste 0.9%float mounted
                                eq_refl eq_refl).
  pose (atPaste :=
          confident_transitions sawBrushInMouth 0.8%float firstAnswered
                                eq_refl eq_refl).
  pose (again :=
          confident_transitions sawToothpaste 0.9%float firstAnswered
                                eq_refl eq_refl).
  split; [exact (proj1 (proj1 atIdle eq_refl) eq_refl) | split].
  - exact (proj1 (proj2 atPaste eq_refl) eq_refl).
  - apply (proj2 (proj2 again eq_refl)). discriminate.
Defined.

(** ** Reset *)

(** C8: [reset] from any session, whatever its state, gives state IDLE, a
    counter of 0 and no error, and so does the restart click once the effects
    have re-run. *)
Theorem reset_returns_to_idle (s : Session) :
  (appState (reset s) = IDLE /\ brushingTime (reset s) = 0 /\
   error (reset s) = None /\ statusMessage (reset s) = READY_MESSAGE) /\
  (appState (step ClickReset s) = IDLE /\
   brushingTime (step ClickReset s) = 0 /\
   error (step ClickReset s) = None /\
   statusMessage (step ClickReset s) = READY_MESSAGE).
Proof.
  split; [cbn; auto |].
  unfold step, commit. cbn [handle].
  destruct (AppState_eqb (appState s) (appState (reset s))); cbn; auto.
Qed.

(** ** Frame capture *)

Lemma captureFrame_unavailable (cam : FrameSource) :
  videoRef cam = None \/ canvasRef cam = None \/
  (exists canvas, canvasRef cam = Some canvas /\ getContext2d canvas = false) ->
  captureFrame cam = None.
Proof.
  unfold captureFrame. intros [Hv | [Hc | [canvas [Hc Hctx]]]].
  - now rewrite Hv.
  - rewrite Hc. now destruct (videoRef cam).
  - rewrite Hc, Hctx. now destruct (videoRef cam).
Qed.

(** A camera without a stream encodes to an empty payload, which is falsy
    too: nothing is sent. *)
Example blank_frame_not_sent :
  captureFrame blankCamera = Some "" /\
  step (PollTick blankCamera) mounted = mounted.
Proof. split; reflexivity. Qed.

(** C10: with no video element, no canvas element or no 2D context,
    [captureFrame] gives nothing and the analysis tick returns the session
    untouched: no request is added to the pending calls, [isAnalyzing] is
    not raised, and state, counter, message and error are as before. *)
Theorem no_frame_no_analysis (cam : FrameSource) (s : Session) :
  videoRef cam = None \/ canvasRef cam = None \/
  (exists canvas, canvasRef cam = Some canvas /\ getContext2d canvas = false) ->
  captureFrame cam = None /\
  analyzeFrame cam s = s /\
  step (PollTick cam) s = s.
Proof.
  intros Hno. pose proof (captureFrame_unavailable cam Hno) as Hcap.
  assert (Ha : analyzeFrame cam s = s).
  { unfold analyzeFrame. rewrite Hcap. now destruct (appState s). }
  split; [exact Hcap | split; [exact Ha |]].
  unfold step. cbn [handle].
  destruct (intervalRef s); [rewrite Ha |]; now apply commit_unchanged.
Qed.

Lemma no_frame_no_analysis_witness :
  captureFrame noContext = None /\
  analyzeFrame noContext mounted = mounted /\
  step (PollTick noContext) mounted = mounted.
Proof.
  apply (no_frame_no_analysis noContext mounted).
  right; right. exists (mkCanvas false "data:image/jpeg;base64,/9j/4AAQSkZJRg").
  split; reflexivity.
Defined.

(** ** The countdown *)

Lemma run_app (es1 es2 : list Event) (s : Session) :
  run (es1 ++ es2) s = run es2 (run es1 s).
Proof. revert s. induction es1 as [| e es1 IH]; intros s; cbn; auto. Qed.

Lemma reachable_run (es : list Event) (s : Session) :
  reachable s -> reachable (run es s).
Proof.
  revert s. induction es as [| e es IH]; intros s Hs; cbn; auto.
  apply IH. now constructor.
Qed.

Lemma setBrushingTime_same (s : Session) : setBrushingTime (brushingTime s) s = s.
Proof. now destruct s. Qed.

(** Below the required time a firing only counts. *)
Lemma tick_counts (s : Session) :
  appState s = BRUSHING -> brushingTimerRef s = true ->
  brushingTime s < BRUSHING_REQUIRED_TIME ->
  step TimerTick s = setBrushingTime (brushingTime s + 1) s.
Proof.
  intros Hb Ht Hlt. unfold step. cbn [handle]. rewrite Ht.
  unfold brushingTick.
  destruct (brushingTime s >=? BRUSHING_REQUIRED_TIME) eqn:Hge.
  - apply Z.geb_le in Hge. lia.
  - now apply commit_unchanged.
Qed.

(** At the required time a firing finishes the session. *)
Lemma tick_finishes (s : Session) :
  appState s = BRUSHING -> brushingTimerRef s = true ->
  BRUSHING_REQUIRED_TIME <= brushingTime s ->
  step TimerTick s =
  setIntervalRef false
    (setBrushingTimerRef false
       (setStatusMessage FINISHED_MESSAGE (setAppState FINISHED s))).
Proof.
  intros Hb Ht Hge. unfold step. cbn [handle]. rewrite Ht.
  unfold brushingTick.
  destruct (brushingTime s >=? BRUSHING_REQUIRED_TIME) eqn:Hgeb.
  - unfold commit. rewrite Hb. reflexivity.
  - rewrite Z.geb_leb in Hgeb. apply Z.leb_gt in Hgeb. lia.
Qed.

Lemma run_ticks_counting (n : nat) (s : Session) :
  appState s = BRUSHING -> brushingTimerRef s = true ->
  brushingTime s + Z.of_nat n <= BRUSHING_REQUIRED_TIME ->
  run (ticks n) s = setBrushingTime (brushingTime s + Z.of_nat n) s.
Proof.
  revert s. induction n as [| n IH]; intros s Hb Ht Hle.
  - cbn. rewrite Z.add_0_r. symmetry. apply setBrushingTime_same.
  - cbn [ticks repeat run]. rewrite tick_counts by (auto; lia).
    fold (ticks n). rewrite IH by (cbn; auto; lia).
    destruct s. unfold setBrushingTime.
    cbn [appState isAnalyzing brushingTime error statusMessage intervalRef
         brushingTimerRef inFlight].
    f_equal. lia.
Qed.

(** C1, as the code runs it: from BRUSHING with the counter at 0 and the
    timer live, the first ten firings take the counter from 0 to 10 and the
    state is BRUSHING after each of them, the tenth included; it is the
    eleventh firing that moves to FINISHED, sets the completion message and
    stops both intervals, with the counter left at 10. *)
Theorem countdown_finishes_one_tick_late (s : Session) :
  appState s = BRUSHING -> brushingTime s = 0 -> brushingTimerRef s = true ->
  (forall n, (n <= 10)%nat ->
     appState (run (ticks n) s) = BRUSHING /\
     brushingTime (run (ticks n) s) = Z.of_nat n) /\
  appState (run (ticks 11) s) = FINISHED /\
  brushingTime (run (ticks 11) s) = BRUSHING_REQUIRED_TIME /\
  statusMessage (run (ticks 11) s) = FINISHED_MESSAGE /\
  brushingTimerRef (run (ticks 11) s) = false /\
  intervalRef (run (ticks 11) s) = false.
Proof.
  intros Hb H0 Ht.
  assert (Hn : forall n, (n <= 10)%nat ->
                 run (ticks n) s = setBrushingTime (Z.of_nat n) s).
  { intros n Hle. rewrite run_ticks_counting; auto.
    - now rewrite H0.
    - rewrite H0. unfold BRUSHING_REQUIRED_TIME. lia. }
  split.
  - intros n Hle. rewrite (Hn n Hle). cbn. auto.
  - change (ticks 11) with (ticks 10 ++ [TimerTick])%list.
    rewrite run_app, (Hn 10%nat) by lia.
    cbn [run]. rewrite tick_finishes; cbn; auto.
    unfold BRUSHING_REQUIRED_TIME. lia.
Qed.

Lemma countdown_finishes_one_tick_late_witness :
  appState (run (ticks 10) startedBrushing) = BRUSHING /\
  brushingTime (run (ticks 10) startedBrushing) = 10 /\
  appState (run (ticks 11) startedBrushing) = FINISHED.
Proof.
  pose (H := countdown_finishes_one_tick_late startedBrushing
               eq_refl eq_refl eq_refl).
  split; [exact (proj1 (proj1 H 10%nat (le_n 10))) | split].
  - exact (proj2 (proj1 H 10%nat (le_n 10))).
  - exact (proj1 (proj2 H)).
Defined.

(** ** The counter invariant *)

Lemma wellFormed_mounted : wellFormed mounted.
Proof.
  unfold wellFormed, BRUSHING_REQUIRED_TIME. cbn.
  repeat split; intros; try lia; try congruence.
Qed.

(** [wellFormed] reads only the state, the counter and the two handles. *)
Lemma wellFormed_ext (s s' : Session) :
  appState s' = appState s -> brushingTime s' = brushingTime s ->
  brushingTimerRef s' = brushingTimerRef s -> intervalRef s' = intervalRef s ->
  wellFormed s -> wellFormed s'.
Proof.
  unfold wellFormed. intros Ha Ht Hb Hi. now rewrite Ha, Ht, Hb, Hi.
Qed.

(** Re-running the effects restores the invariant as soon as the counter
    fits the state entered. *)
Lemma wellFormed_effects (s : Session) :
  (appState s = BRUSHING -> 0 <= brushingTime s <= BRUSHING_REQUIRED_TIME) ->
  (appState s = FINISHED -> brushingTime s = BRUSHING_REQUIRED_TIME) ->
  wellFormed (effects s).
Proof.
  unfold wellFormed, BRUSHING_REQUIRED_TIME.
  destruct s as [a an t er m ir br fl]. cbn. intros Hb Hf.
  destruct a; cbn; repeat split; intros; try lia; try congruence;
    try (specialize (Hb eq_refl); lia); try (specialize (Hf eq_refl); lia);
    try (match goal with H : _ /\ _ |- _ => destruct H; congruence end).
Qed.

Lemma wellFormed_commit (prev : AppState) (s : Session) :
  (AppState_eqb prev (appState s) = true -> wellFormed s) ->
  (appState s = BRUSHING -> 0 <= brushingTime s <= BRUSHING_REQUIRED_TIME) ->
  (appState s = FINISHED -> brushingTime s = BRUSHING_REQUIRED_TIME) ->
  wellFormed (commit prev s).
Proof.
  intros Hsame Hb Hf. unfold commit.
  destruct (AppState_eqb prev (appState s)); auto using wellFormed_effects.
Qed.

Lemma wellFormed_analyzeFrame (cam : FrameSource) (s : Session) :
  wellFormed s -> wellFormed (analyzeFrame cam s).
Proof.
  apply wellFormed_ext; auto using appState_analyzeFrame;
    unfold analyzeFrame; destruct (appState s); auto;
    destruct (captureFrame cam) as [img |]; auto;
    destruct (Js.empty img); auto.
Qed.

(** A settled call moves the state only to APPLYING_TOOTHPASTE or, from
    there, to BRUSHING, and in both cases the counter is still 0. *)
Lemma settle_counter (o : ClassifierOutcome) (s : Session) :
  brushingTime (settle o s) = brushingTime s /\
  brushingTimerRef (settle o s) = brushingTimerRef s /\
  intervalRef (settle o s) = intervalRef s /\
  (appState (settle o s) = appState s \/
   (appState s <> BRUSHING /\ appState s <> FINISHED /\
    appState (settle o s) <> FINISHED)).
Proof.
  assert (H : forall r,
             appState (handleDetectionResult r s) = appState s \/
             (appState s <> BRUSHING /\ appState s <> FINISHED /\
              appState (handleDetectionResult r s) <> FINISHED)).
  { intros r. unfold handleDetectionResult.
    destruct (Js.lt (confidence r) CONFIDENCE_GATE); auto.
    destruct (appState s) eqn:Ha; auto;
      match goal with |- context [Js.truthy ?b] => destruct (Js.truthy b) end;
      cbn; auto; right; repeat split; congruence. }
  destruct o as [ | | | | r]; cbn [settle]; cbn; auto;
    [ pose proof (handleDetectionResult_frame emptyObject s) as Hfr;
      specialize (H emptyObject)
    | pose proof (handleDetectionResult_frame r s) as Hfr;
      specialize (H r) ];
    cbn in Hfr; destruct Hfr as (Ht & _ & _ & _ & Hi & Hb); auto.
Qed.

(** Closes the conjuncts of [wellFormed] once the state is known. *)
Ltac wf_close :=
  unfold wellFormed, BRUSHING_REQUIRED_TIME in *; cbn in *;
  intuition (try congruence; try lia).

Lemma wellFormed_step (e : Event) (s : Session) :
  wellFormed s -> wellFormed (step e s).
Proof.
  intros Hwf.
  destruct e as [cam | i o | | | granted].
  - unfold step. cbn [handle]. rewrite commit_unchanged.
    + destruct (intervalRef s); auto using wellFormed_analyzeFrame.
    + destruct (intervalRef s); auto using appState_analyzeFrame.
  - unfold step. cbn [handle].
    destruct (nth_error (inFlight s) i) as [req |];
      [| now rewrite commit_unchanged].
    set (s0 := setInFlight (remove_nth i (inFlight s)) s).
    destruct (settle_counter o s0) as (Ht & Hb & Hi & Hst).
    change (appState s0) with (appState s) in Hst.
    change (brushingTime s0) with (brushingTime s) in Ht.
    change (brushingTimerRef s0) with (brushingTimerRef s) in Hb.
    change (intervalRef s0) with (intervalRef s) in Hi.
    pose proof Hwf as (Hrange & Hfin & Hzero & Htimer & Hpoll).
    apply wellFormed_commit.
    + intros Hsame. apply AppState_eqb_eq in Hsame.
      apply (wellFormed_ext s);
        [now symmetry | exact Ht | exact Hb | exact Hi | exact Hwf].
    + intros _. now rewrite Ht.
    + intros Hf. rewrite Ht. destruct Hst as [Hst | (_ & _ & Hst)];
        [apply Hfin; congruence | contradiction].
  - destruct (brushingTimerRef s) eqn:Hlive.
    2: { unfold step. cbn [handle]. rewrite Hlive.
         now rewrite commit_unchanged. }
    assert (Hb : appState s = BRUSHING) by now apply Hwf.
    destruct (Z_lt_le_dec (brushingTime s) BRUSHING_REQUIRED_TIME) as [Hlt | Hge].
    + rewrite tick_counts by auto. wf_close.
    + rewrite tick_finishes by auto. wf_close.
  - unfold step. cbn [handle].
    apply wellFormed_commit; cbn; try congruence.
    intros Hsame. apply AppState_eqb_eq in Hsame. wf_close.
  - unfold step. cbn [handle].
    destruct granted; apply wellFormed_commit; cbn; try congruence;
      intros Hsame; apply AppState_eqb_eq in Hsame; wf_close.
Qed.

Lemma wellFormed_reachable (s : Session) : reachable s -> wellFormed s.
Proof.
  induction 1; auto using wellFormed_mounted, wellFormed_step.
Qed.

Lemma brushingTime_effects_brushing (s : Session) :
  appState s = BRUSHING -> brushingTime (effects s) = brushingTime s.
Proof. destruct s as [a ? ? ? ? ? ? ?]. cbn. intros ->. reflexivity. Qed.

(** C7: in every session reachable from the mounted component the counter
    lies between 0 and BRUSHING_REQUIRED_TIME; it is non-zero only in
    BRUSHING or, frozen at BRUSHING_REQUIRED_TIME, in FINISHED; and an event
    that changes the state leaves the counter at BRUSHING_REQUIRED_TIME when
    the state entered is FINISHED and at 0 when it is any other. *)
Theorem counter_invariant (s : Session) :
  reachable s ->
  0 <= brushingTime s <= BRUSHING_REQUIRED_TIME /\
  (brushingTime s <> 0 -> appState s = BRUSHING \/ appState s = FINISHED) /\
  (appState s = FINISHED -> brushingTime s = BRUSHING_REQUIRED_TIME) /\
  (forall e, appState (step e s) <> appState s ->
     (appState (step e s) = FINISHED ->
        brushingTime (step e s) = BRUSHING_REQUIRED_TIME) /\
     (appState (step e s) <> FINISHED -> brushingTime (step e s) = 0)).
Proof.
  intros Hreach.
  pose proof (wellFormed_reachable s Hreach)
    as (Hrange & Hfin & Hzero & Htimer & Hpoll).
  split; [exact Hrange | split; [| split; [exact Hfin |]]].
  - intros Hnz.
    destruct (appState s) eqn:Ha; auto; exfalso; apply Hnz, Hzero; congruence.
  - intros e Hchanged.
    pose proof (wellFormed_step e s (wellFormed_reachable s Hreach))
      as (_ & Hfin' & Hzero' & _ & _).
    split; [exact Hfin' |].
    intros Hnf.
    assert (Hcases : appState (step e s) <> BRUSHING \/
                     appState (step e s) = BRUSHING)
      by (destruct (appState (step e s)); (left; congruence) || now right).
    destruct Hcases as [Hnb | Ha']; [now apply Hzero' |].
    (* BRUSHING is entered only by a settled call, which keeps the counter *)
    revert Ha' Hchanged. unfold step. rewrite appState_commit.
    destruct e as [cam | i o | | | granted]; cbn [handle].
    + destruct (intervalRef s); [rewrite appState_analyzeFrame |]; congruence.
    + destruct (nth_error (inFlight s) i) as [req |]; [| congruence].
      intros Ha' Hchanged.
      set (s0 := setInFlight (remove_nth i (inFlight s)) s) in *.
      destruct (settle_counter o s0) as (Ht & _ & _ & Hst).
      change (appState s0) with (appState s) in Hst.
      change (brushingTime s0) with (brushingTime s) in Ht.
      destruct Hst as [Hst | (Hnb & Hnfin & _)]; [congruence |].
      unfold commit.
      destruct (AppState_eqb (appState s) (appState (settle o s0))) eqn:Heq.
      * apply AppState_eqb_eq in Heq. congruence.
      * rewrite brushingTime_effects_brushing by exact Ha'.
        rewrite Ht. now apply Hzero.
    + destruct (brushingTimerRef s); [| congruence].
      unfold brushingTick.
      destruct (brushingTime s >=? BRUSHING_REQUIRED_TIME); cbn; congruence.
    + cbn. congruence.
    + destruct granted; cbn; congruence.
Qed.

Lemma counter_invariant_witness :
  0 <= brushingTime finishedSession <= BRUSHING_REQUIRED_TIME /\
  (brushingTime finishedSession <> 0 ->
     appState finishedSession = BRUSHING \/
     appState finishedSession = FINISHED) /\
  (appState finishedSession = FINISHED ->
     brushingTime finishedSession = BRUSHING_REQUIRED_TIME) /\
  (forall e, appState (step e finishedSession) <> appState finishedSession ->
     (appState (step e finishedSession) = FINISHED ->
        brushingTime (step e finishedSession) = BRUSHING_REQUIRED_TIME) /\
     (appState (step e finishedSession) <> FINISHED ->
        brushingTime (step e finishedSession) = 0)).
Proof.
  apply (counter_invariant finishedSession).
  unfold finishedSession, startedBrushing.
  apply reachable_run, reachable_run, reach_mounted.
Defined.

(** ** Leaving BRUSHING *)




(** ** Dispatch and settlement of classifier calls *)


Lemma isAnalyzing_commit (prev : AppState) (s : Session) :
  isAnalyzing (commit prev s) = isAnalyzing s.
Proof.
  unfold commit. destruct (AppState_eqb prev (appState s)); auto.
  destruct s as [a ? ? ? ? ? ? ?]. now destruct a.
Qed.

Lemma inFlight_commit (prev : AppState) (s : Session) :
  inFlight (commit prev s) = inFlight s.
Proof.
  unfold commit. destruct (AppState_eqb prev (appState s)); auto.
  destruct s as [a ? ? ? ? ? ? ?]. now destruct a.
Qed.




Lemma handleDetectionResult_setInFlight
  (result : DetectionResult) (l : list Request) (s : Session) :
  handleDetectionResult result (setInFlight l s)
  = setInFlight l (handleDetectionResult result s).
Proof.
  unfold handleDetectionResult.
  destruct (Js.lt (confidence result) CONFIDENCE_GATE); auto.
  cbn [appState setInFlight].
  destruct (appState s); auto;
    match goal with |- context [Js.truthy ?b] => destruct (Js.truthy b) end;
    reflexivity.
Qed.

Lemma statusMessage_commit (prev : AppState) (s : Session) :
  statusMessage (commit prev s) = statusMessage s.
Proof.
  unfold commit. destruct (AppState_eqb prev (appState s)); auto.
  destruct s as [a ? ? ? ? ? ? ?]. now destruct a.
Qed.

Lemma error_commit (prev : AppState) (s : Session) :
  error (commit prev s) = error s.
Proof.
  unfold commit. destruct (AppState_eqb prev (appState s)); auto.
  destruct s as [a ? ? ? ? ? ? ?]. now destruct a.
Qed.

(** C3, refuted: in [firstAnswered] the pending call was requested under
    IDLE and the session has since moved to APPLYING_TOOTHPASTE; when that
    call settles with a brush-in-mouth result it is applied all the same and
    moves the session to BRUSHING with the brushing message. *)
Lemma stale_result_applied :
  reachable firstAnswered /\
  inFlight firstAnswered = [mkRequest IDLE "/9j/4AAQSkZJRg"] /\
  appState firstAnswered = APPLYING_TOOTHPASTE /\
  appState (step (Settle 0 (Parsed sawBrushInMouth)) firstAnswered)
    = BRUSHING /\
  statusMessage (step (Settle 0 (Parsed sawBrushInMouth)) firstAnswered)
    = BRUSHING_MESSAGE.
Proof.
  split; [apply reachable_run, reach_mounted |].
  repeat split; reflexivity.
Qed.

(** C3, amended: a settling call is applied to the state the session is in
    when it settles, whatever state its request carried: state and message
    afterwards are those [handleDetectionResult] gives on the current
    session.  So a late result changes neither state nor message once the
    session is in BRUSHING, FINISHED or ERROR, and is applied by the rules of
    the current state in IDLE and APPLYING_TOOTHPASTE. *)
Theorem settled_result_meets_current_state
  (s : Session) (i : nat) (req : Request) (result : DetectionResult) :
  nth_error (inFlight s) i = Some req ->
  appState (step (Settle i (Parsed result)) s)
    = appState (handleDetectionResult result s) /\
  statusMessage (step (Settle i (Parsed result)) s)
    = statusMessage (handleDetectionResult result s) /\
  (appState s = BRUSHING \/ appState s = FINISHED \/ appState s = ERROR ->
   appState (step (Settle i (Parsed result)) s) = appState s /\
   statusMessage (step (Settle i (Parsed result)) s) = statusMessage s).
Proof.
  intros Hreq. unfold step. cbn [handle]. rewrite Hreq.
  rewrite appState_commit, statusMessage_commit.
  cbn [settle]. rewrite handleDetectionResult_setInFlight. cbn.
  repeat split; auto;
    now rewrite handleDetectionResult_sticky.
Qed.

Lemma settled_result_meets_current_state_witness :
  (appState (step (Settle 0 (Parsed sawBrushInMouth)) firstAnswered)
     = appState (handleDetectionResult sawBrushInMouth firstAnswered) /\
   statusMessage (step (Settle 0 (Parsed sawBrushInMouth)) firstAnswered)
     = statusMessage (handleDetectionResult sawBrushInMouth firstAnswered)) /\
  (appState (step (Settle 0 (Parsed sawToothpaste)) lateInBrushing)
     = appState lateInBrushing /\
   statusMessage (step (Settle 0 (Parsed sawToothpaste)) lateInBrushing)
     = statusMessage lateInBrushing).
Proof.
  pose (early :=
          settled_result_meets_current_state
            firstAnswered 0 (mkRequest IDLE "/9j/4AAQSkZJRg") sawBrushInMouth
            eq_refl).
  pose (late :=
          settled_result_meets_current_state
            lateInBrushing 0 (mkRequest IDLE "/9j/4AAQSkZJRg") sawToothpaste
            eq_refl).
  split.
  - exact (conj (proj1 early) (proj1 (proj2 early))).
  - exact (proj2 (proj2 late) (or_introl eq_refl)).
Defined.

(** ** Classifier faults *)

(** C9, refuted: the response [{"isApplyingToothpaste": true}] lacks four of
    the five fields, yet when it settles in IDLE it is taken as a detection:
    the session moves to APPLYING_TOOTHPASTE and the message changes. *)
Lemma missing_fields_taken_as_detection :
  reachable onePending /\
  appState onePending = IDLE /\
  confidence onlyToothpaste = None /\
  appState (step (Settle 0 (Parsed onlyToothpaste)) onePending)
    = APPLYING_TOOTHPASTE /\
  statusMessage (step (Settle 0 (Parsed onlyToothpaste)) onePending)
    = TOOTHPASTE_MESSAGE.
Proof.
  split; [apply reachable_run, reach_mounted |].
  repeat split; reflexivity.
Qed.

(** C9, amended: a call that ends in a transport error, in malformed JSON,
    in JSON null or in an empty response is absorbed: state, counter,
    message and error are as before, so the state does not become ERROR by
    it.  A response that parses with fields missing is not a fault: an
    absent boolean reads as false and an absent confidence passes the gate
    like a confidence of 1. *)
Theorem classifier_faults_absorbed
  (s : Session) (i : nat) (o : ClassifierOutcome) :
  o = TransportError \/ o = MalformedJson \/ o = JsonNull \/ o = EmptyText ->
  (appState (step (Settle i o) s) = appState s /\
   brushingTime (step (Settle i o) s) = brushingTime s /\
   statusMessage (step (Settle i o) s) = statusMessage s /\
   error (step (Settle i o) s) = error s) /\
  (forall result, confidence result = None ->
     handleDetectionResult result s
     = handleDetectionResult (withConfidence 1%float result) s).
Proof.
  intros Ho. split.
  - assert (Hs : forall s0, settle o s0 = setIsAnalyzing false s0).
    { intros s0. destruct Ho as [-> | [-> | [-> | ->]]]; cbn [settle]; auto.
      unfold handleDetectionResult. cbn. now destruct (appState s0). }
    unfold step. cbn [handle].
    destruct (nth_error (inFlight s) i) as [req |].
    + rewrite Hs. rewrite commit_unchanged by reflexivity. cbn. auto.
    + rewrite commit_unchanged by reflexivity. auto.
  - intros result Hnone. unfold handleDetectionResult.
    rewrite Hnone. reflexivity.
Qed.

Lemma classifier_faults_absorbed_witness :
  (appState (step (Settle 0 MalformedJson) lateInBrushing)
     = appState lateInBrushing /\
   brushingTime (step (Settle 0 MalformedJson) lateInBrushing)
     = brushingTime lateInBrushing /\
   statusMessage (step (Settle 0 MalformedJson) lateInBrushing)
     = statusMessage lateInBrushing /\
   error (step (Settle 0 MalformedJson) lateInBrushing)
     = error lateInBrushing) /\
  (forall result, confidence result = None ->
     handleDetectionResult result lateInBrushing
     = handleDetectionResult (withConfidence 1%float result) lateInBrushing).
Proof.
  apply (classifier_faults_absorbed lateInBrushing 0 MalformedJson).
  right; left; reflexivity.
Defined.

(** ** The transition graph *)

(** The state after [handleDetectionResult], rule by rule. *)
Lemma handleDetectionResult_appState (result : DetectionResult) (s : Session) :
  appState (handleDetectionResult result s) = appState s \/
  (Js.lt (confidence result) CONFIDENCE_GATE = false /\
   ((appState s = IDLE /\ Js.truthy (isApplyingToothpaste result) = true /\
     appState (handleDetectionResult result s) = APPLYING_TOOTHPASTE) \/
    (appState s = APPLYING_TOOTHPASTE /\
     Js.truthy (isBrushInMouth result) = true /\
     appState (handleDetectionResult result s) = BRUSHING))).
Proof.
  unfold handleDetectionResult.
  destruct (Js.lt (confidence result) CONFIDENCE_GATE); auto.
  destruct (appState s) eqn:Ha; auto.
  - destruct (Js.truthy (isApplyingToothpaste result)); auto.
    right. split; auto.
  - destruct (Js.truthy (isBrushInMouth result)); auto.
    right. split; auto.
Qed.

Lemma handleDetectionResult_emptyObject (s : Session) :
  handleDetectionResult emptyObject s = s.
Proof. unfold handleDetectionResult. cbn. now destruct (appState s). Qed.

Lemma appState_settle (o : ClassifierOutcome) (l : list Request) (s : Session) :
  appState (settle o (setInFlight l s)) = appState s \/
  exists result, o = Parsed result /\
    appState (settle o (setInFlight l s))
      = appState (handleDetectionResult result s) /\
    appState (handleDetectionResult result s) <> appState s.
Proof.
  destruct o as [ | | | | result]; cbn [settle]; auto.
  - left. now rewrite handleDetectionResult_emptyObject.
  - rewrite handleDetectionResult_setInFlight. cbn.
    destruct (handleDetectionResult_appState result s) as [Hsame | Hmove];
      auto.
    right. exists result. repeat split.
    destruct Hmove as (_ & [(Ha & _ & Hb) | (Ha & _ & Hb)]); congruence.
Qed.

Lemma edge_of_step (s : Session) (e : Event) :
  wellFormed s ->
  appState (step e s) <> appState s ->
  edge (appState s) e (appState (step e s)).
Proof.
  intros (_ & _ & _ & Htimer & _).
  unfold step. rewrite appState_commit.
  destruct e as [cam | i o | | | granted]; cbn [handle].
  - destruct (intervalRef s); [rewrite appState_analyzeFrame |]; congruence.
  - destruct (nth_error (inFlight s) i) as [req |]; [| congruence].
    destruct (appState_settle o (remove_nth i (inFlight s)) s)
      as [Hsame | (result & -> & Heq & _)]; [congruence |].
    rewrite Heq. intros Hmoved.
    destruct (handleDetectionResult_appState result s)
      as [Hsame | (Hgate & [(Ha & Hflag & Hb) | (Ha & Hflag & Hb)])];
      [congruence | |]; rewrite Ha, Hb; now constructor.
  - destruct (brushingTimerRef s) eqn:Hlive; [| congruence].
    assert (Hb : appState s = BRUSHING) by now apply Htimer.
    unfold brushingTick.
    destruct (brushingTime s >=? BRUSHING_REQUIRED_TIME); cbn;
      [| congruence].
    intros _. rewrite Hb. constructor.
  - cbn. intros Hmoved. constructor. congruence.
  - destruct granted; cbn; intros Hmoved; constructor; congruence.
Qed.

(** X3: in a reachable session an event changes the state only along an
    [edge]: IDLE to APPLYING_TOOTHPASTE and APPLYING_TOOTHPASTE to BRUSHING
    by a settled result that passes the gate with the flag of that rule,
    BRUSHING to FINISHED by the brushing timer, anything to IDLE by the
    restart click or a granted camera, anything to ERROR by a denied
    camera. *)
Theorem state_changes_follow_edges (s : Session) (e : Event) :
  reachable s ->
  appState (step e s) <> appState s ->
  edge (appState s) e (appState (step e s)).
Proof.
  intros Hreach. apply edge_of_step. now apply wellFormed_reachable.
Qed.

Lemma state_changes_follow_edges_witness :
  edge (appState firstAnswered) (Settle 0 (Parsed sawBrushInMouth))
       (appState (step (Settle 0 (Parsed sawBrushInMouth)) firstAnswered)).
Proof.
  apply (state_changes_follow_edges firstAnswered
           (Settle 0 (Parsed sawBrushInMouth))).
  - unfold firstAnswered. apply reachable_run, reach_mounted.
  - discriminate.
Defined.

(** ** The two intervals *)

(** X1: in a reachable session the polling interval is live exactly when the
    state is neither FINISHED nor ERROR, and in those two states a polling
    tick leaves the whole session as it was: no frame is captured for the
    classifier and no call is started. *)
Theorem polling_follows_state (s : Session) :
  reachable s ->
  (intervalRef s = true <-> appState s <> FINISHED /\ appState s <> ERROR) /\
  (appState s = FINISHED \/ appState s = ERROR ->
   forall cam, step (PollTick cam) s = s).
Proof.
  intros Hreach.
  pose proof (wellFormed_reachable s Hreach) as (_ & _ & _ & _ & Hpoll).
  split; [exact Hpoll |].
  intros Hterminal cam. unfold step. cbn [handle].
  assert (Hoff : intervalRef s = false).
  { destruct (intervalRef s); auto.
    destruct (proj1 Hpoll eq_refl) as [Hnf Hne].
    destruct Hterminal; contradiction. }
  rewrite Hoff. now apply commit_unchanged.
Qed.

Lemma polling_follows_state_witness :
  (intervalRef finishedSession = true <->
   appState finishedSession <> FINISHED /\ appState finishedSession <> ERROR) /\
  (appState finishedSession = FINISHED \/ appState finishedSession = ERROR ->
   forall cam, step (PollTick cam) finishedSession = finishedSession).
Proof.
  apply (polling_follows_state finishedSession).
  unfold finishedSession, startedBrushing.
  apply reachable_run, reachable_run, reach_mounted.
Defined.

(** X2: in a reachable session the brushing timer is live exactly in
    BRUSHING, and outside BRUSHING a firing of it leaves the whole session
    as it was: the counter is not advanced and the session is not finished
    by a timer left over from an earlier state. *)
Theorem timer_follows_state (s : Session) :
  reachable s ->
  (brushingTimerRef s = true <-> appState s = BRUSHING) /\
  (appState s <> BRUSHING -> step TimerTick s = s).
Proof.
  intros Hreach.
  pose proof (wellFormed_reachable s Hreach) as (_ & _ & _ & Htimer & _).
  split; [exact Htimer |].
  intros Hnb. unfold step. cbn [handle].
  destruct (brushingTimerRef s) eqn:Hlive.
  - exfalso. apply Hnb. now apply Htimer.
  - now apply commit_unchanged.
Qed.

Lemma timer_follows_state_witness :
  (brushingTimerRef firstAnswered = true <->
   appState firstAnswered = BRUSHING) /\
  (appState firstAnswered <> BRUSHING ->
   step TimerTick firstAnswered = firstAnswered).
Proof.
  apply (timer_follows_state firstAnswered).
  unfold firstAnswered. apply reachable_run, reach_mounted.
Defined.

(** ** Error, message, flag and pending calls *)

Lemma consistent_ext (s s' : Session) :
  appState s' = appState s -> error s' = error s ->
  statusMessage s' = statusMessage s -> isAnalyzing s' = isAnalyzing s ->
  inFlight s' = inFlight s ->
  consistent s -> consistent s'.
Proof.
  unfold consistent. intros Ha He Hm Hf Hl. now rewrite Ha, He, Hm, Hf, Hl.
Qed.

Lemma consistent_commit (prev : AppState) (s : Session) :
  consistent s -> consistent (commit prev s).
Proof.
  apply consistent_ext;
    auto using appState_commit, error_commit, statusMessage_commit,
               isAnalyzing_commit, inFlight_commit.
Qed.

Lemma consistent_mounted : consistent mounted.
Proof.
  unfold consistent. cbn.
  repeat split; intros; try congruence; try discriminate. constructor.
Qed.

Lemma Forall_remove_nth {A : Type} (P : A -> Prop) (i : nat) (l : list A) :
  Forall P l -> Forall P (remove_nth i l).
Proof.
  intros H. revert i.
  induction H as [| x l Hx Hl IH]; intros [| j]; cbn; auto.
Qed.

Lemma Js_empty_false (img : string) : Js.empty img = false -> img <> "".
Proof. destruct img; cbn; congruence. Qed.

Lemma consistent_dispatch (img : string) (s : Session) :
  appState s <> FINISHED -> appState s <> ERROR -> img <> "" ->
  consistent s ->
  consistent (setInFlight (inFlight s ++ [mkRequest (appState s) img])
                          (setIsAnalyzing true s)).
Proof.
  intros Hnf Hne Himg (He1 & He2 & Hm1 & Hm2 & Hm3 & Hflag & Hreqs).
  unfold consistent. cbn.
  repeat split; auto.
  - intros _ Hnil. now apply app_eq_nil in Hnil.
  - apply Forall_app. split; auto.
    constructor; [| constructor]. now repeat split.
Qed.

Lemma consistent_analyzeFrame (cam : FrameSource) (s : Session) :
  consistent s -> consistent (analyzeFrame cam s).
Proof.
  intros Hc. unfold analyzeFrame.
  destruct (appState s) eqn:Ha; auto;
    destruct (captureFrame cam) as [img |]; auto;
    destruct (Js.empty img) eqn:Himg; auto;
    apply Js_empty_false in Himg;
    change (consistent
              (setInFlight (inFlight s ++ [mkRequest (appState s) img])
                           (setIsAnalyzing true s)));
    apply consistent_dispatch; auto; congruence.
Qed.

Lemma consistent_settle (o : ClassifierOutcome) (l : list Request) (s : Session) :
  consistent s -> Forall sendable l -> consistent (settle o (setInFlight l s)).
Proof.
  intros (He1 & He2 & Hm1 & Hm2 & Hm3 & Hflag & Hreqs) Hl.
  assert (Hlow : consistent (setIsAnalyzing false (setInFlight l s))).
  { unfold consistent. cbn. repeat split; auto; discriminate. }
  destruct o as [ | | | | result]; cbn [settle]; auto.
  - now rewrite handleDetectionResult_emptyObject.
  - unfold handleDetectionResult.
    destruct (Js.lt (confidence result) CONFIDENCE_GATE); auto.
    cbn [appState setInFlight].
    destruct (appState s) eqn:Ha; auto;
      match goal with |- context [Js.truthy ?b] => destruct (Js.truthy b) end;
      auto; unfold consistent; cbn;
      repeat split; intros; try congruence; try discriminate;
        auto; apply He2; congruence.
Qed.

Lemma consistent_step (e : Event) (s : Session) :
  wellFormed s -> consistent s -> consistent (step e s).
Proof.
  intros Hwf Hc. unfold step. apply consistent_commit.
  destruct e as [cam | i o | | | granted]; cbn [handle].
  - destruct (intervalRef s); auto using consistent_analyzeFrame.
  - destruct (nth_error (inFlight s) i); auto.
    apply consistent_settle; auto.
    apply Forall_remove_nth. apply Hc.
  - destruct (brushingTimerRef s) eqn:Hlive; auto.
    assert (Hb : appState s = BRUSHING) by now apply Hwf.
    destruct Hc as (He1 & He2 & Hm1 & Hm2 & Hm3 & Hflag & Hreqs).
    unfold brushingTick.
    destruct (brushingTime s >=? BRUSHING_REQUIRED_TIME);
      unfold consistent; cbn; rewrite ?Hb;
      repeat split; intros; try congruence; auto;
      apply He2; congruence.
  - destruct Hc as (He1 & He2 & Hm1 & Hm2 & Hm3 & Hflag & Hreqs).
    unfold consistent; cbn. repeat split; intros; try congruence; auto.
  - destruct Hc as (He1 & He2 & Hm1 & Hm2 & Hm3 & Hflag & Hreqs).
    destruct granted; unfold consistent; cbn;
      repeat split; intros; try congruence; auto.
Qed.

Lemma consistent_reachable (s : Session) : reachable s -> consistent s.
Proof.
  induction 1 as [| e s Hreach IH]; auto using consistent_mounted.
  apply consistent_step; auto using wellFormed_reachable.
Qed.

(** X4: in a reachable session the error is set exactly in state ERROR,
    where it is the camera message; in every other state it is null. *)
Theorem error_matches_state (s : Session) :
  reachable s ->
  (appState s = ERROR <-> error s = Some CAMERA_ERROR) /\
  (appState s <> ERROR <-> error s = None).
Proof.
  intros Hreach.
  pose proof (consistent_reachable s Hreach) as (He1 & He2 & _).
  assert (Hdec : appState s = ERROR \/ appState s <> ERROR)
    by (destruct (appState s); (now left) || (right; congruence)).
  split; split; auto.
  - intros Herr. destruct Hdec as [| Hne]; auto.
    rewrite (He2 Hne) in Herr. discriminate.
  - intros Hnone Hc. rewrite (He1 Hc) in Hnone. discriminate.
Qed.

Lemma error_matches_state_witness :
  (appState (step (Camera false) startedBrushing) = ERROR <->
   error (step (Camera false) startedBrushing) = Some CAMERA_ERROR) /\
  (appState (step (Camera false) startedBrushing) <> ERROR <->
   error (step (Camera false) startedBrushing) = None).
Proof.
  apply (error_matches_state (step (Camera false) startedBrushing)).
  apply reach_step. unfold startedBrushing.
  apply reachable_run, reach_mounted.
Defined.

(** X5: in a reachable session the status message is the toothpaste message
    throughout APPLYING_TOOTHPASTE, the brushing message throughout BRUSHING
    and the completion message throughout FINISHED. *)
Theorem message_matches_progress (s : Session) :
  reachable s ->
  (appState s = APPLYING_TOOTHPASTE -> statusMessage s = TOOTHPASTE_MESSAGE) /\
  (appState s = BRUSHING -> statusMessage s = BRUSHING_MESSAGE) /\
  (appState s = FINISHED -> statusMessage s = FINISHED_MESSAGE).
Proof.
  intros Hreach.
  pose proof (consistent_reachable s Hreach) as (_ & _ & Hm1 & Hm2 & Hm3 & _).
  auto.
Qed.

Lemma message_matches_progress_witness :
  (appState lateInBrushing = APPLYING_TOOTHPASTE ->
   statusMessage lateInBrushing = TOOTHPASTE_MESSAGE) /\
  (appState lateInBrushing = BRUSHING ->
   statusMessage lateInBrushing = BRUSHING_MESSAGE) /\
  (appState lateInBrushing = FINISHED ->
   statusMessage lateInBrushing = FINISHED_MESSAGE).
Proof.
  apply (message_matches_progress lateInBrushing).
  unfold lateInBrushing. apply reachable_run, reach_mounted.
Defined.

(** X6: in a reachable session [isAnalyzing] is raised only while some
    classifier call is pending: once the last call has settled, by result or
    by error, the flag is down. *)
Theorem analyzing_only_while_pending (s : Session) :
  reachable s ->
  isAnalyzing s = true -> inFlight s <> [].
Proof.
  intros Hreach.
  now pose proof (consistent_reachable s Hreach) as (_ & _ & _ & _ & _ & Hf & _).
Qed.

Lemma analyzing_only_while_pending_witness : inFlight onePending <> [].
Proof.
  apply (analyzing_only_while_pending onePending).
  - unfold onePending. apply reachable_run, reach_mounted.
  - reflexivity.
Defined.

(** X7: every classifier call pending in a reachable session was sent with
    a non-empty frame and with a state other than FINISHED and ERROR in its
    prompt. *)
Theorem pending_requests_sendable (s : Session) :
  reachable s -> Forall sendable (inFlight s).
Proof.
  intros Hreach.
  now pose proof (consistent_reachable s Hreach) as (_ & _ & _ & _ & _ & _ & Hr).
Qed.

Lemma pending_requests_sendable_witness :
  Forall sendable (inFlight lateInBrushing).
Proof.
  apply (pending_requests_sendable lateInBrushing).
  unfold lateInBrushing. apply reachable_run, reach_mounted.
Defined.

(** ** Reset and camera outcomes, field by field *)

(** X8: the restart click on a reachable session gives the mounted
    component again, polling interval live and brushing timer off, except
    that the pending classifier calls and [isAnalyzing] are kept as they
    were. *)
Theorem reset_restores_mounted (s : Session) :
  reachable s ->
  step ClickReset s
  = setInFlight (inFlight s) (setIsAnalyzing (isAnalyzing s) mounted).
Proof.
  intros Hreach.
  pose proof (wellFormed_reachable s Hreach)
    as (_ & _ & _ & Htimer & Hpoll).
  unfold step, commit. cbn [handle].
  destruct s as [a an t er m ir br fl]. cbn in *.
  destruct a; cbn; try reflexivity.
  assert (Hir : ir = true) by (apply Hpoll; split; congruence).
  assert (Hbr : br = false).
  { destruct br; auto. destruct Htimer as [Hb _].
    specialize (Hb eq_refl). discriminate. }
  now rewrite Hir, Hbr.
Qed.

Lemma reset_restores_mounted_witness :
  step ClickReset finishedSession
  = setInFlight (inFlight finishedSession)
                (setIsAnalyzing (isAnalyzing finishedSession) mounted).
Proof.
  apply (reset_restores_mounted finishedSession).
  unfold finishedSession, startedBrushing.
  apply reachable_run, reachable_run, reach_mounted.
Defined.

(** X9: on a reachable session a denied camera gives state ERROR with the
    camera message as error, counter 0 and both intervals off, and a
    granted camera gives state IDLE with no error, counter 0, polling live
    and the brushing timer off; in both cases the status message, the
    analyzing flag and the pending calls are left as they were. *)
Theorem camera_outcome (s : Session) :
  reachable s ->
  step (Camera false) s
  = mkSession ERROR (isAnalyzing s) 0 (Some CAMERA_ERROR) (statusMessage s)
              false false (inFlight s) /\
  step (Camera true) s
  = mkSession IDLE (isAnalyzing s) 0 None (statusMessage s)
              true false (inFlight s).
Proof.
  intros Hreach.
  pose proof (wellFormed_reachable s Hreach)
    as (_ & _ & Hzero & Htimer & Hpoll).
  pose proof (consistent_reachable s Hreach) as (He1 & He2 & _).
  unfold step, commit. cbn [handle].
  destruct s as [a an t er m ir br fl]. cbn in *.
  assert (Hbr : a <> BRUSHING -> br = false).
  { intros Hnb. destruct br; auto. destruct Htimer as [Hb _].
    now specialize (Hb eq_refl). }
  split; destruct a; cbn; try reflexivity.
  - (* already ERROR: nothing re-runs *)
    rewrite (Hzero ltac:(congruence) ltac:(congruence)).
    rewrite (Hbr ltac:(congruence)).
    destruct ir; auto.
    destruct Hpoll as [Hp _]. destruct (Hp eq_refl). congruence.
  - (* already IDLE *)
    rewrite (Hzero ltac:(congruence) ltac:(congruence)).
    rewrite (Hbr ltac:(congruence)).
    destruct Hpoll as [_ Hp]. rewrite Hp by (split; congruence).
    reflexivity.
Qed.

Lemma camera_outcome_witness :
  step (Camera false) startedBrushing
  = mkSession ERROR (isAnalyzing startedBrushing) 0 (Some CAMERA_ERROR)
              (statusMessage startedBrushing) false false
              (inFlight startedBrushing) /\
  step (Camera true) startedBrushing
  = mkSession IDLE (isAnalyzing startedBrushing) 0 None
              (statusMessage startedBrushing) true false
              (inFlight startedBrushing).
Proof.
  apply (camera_outcome startedBrushing).
  unfold startedBrushing. apply reachable_run, reach_mounted.
Defined.

(** ** The countdown and the classifier *)

(** In BRUSHING, FINISHED and ERROR a settling call does nothing but leave
    the pending calls and lower the flag. *)
Lemma step_settle_sticky (s : Session) (i : nat) (req : Request)
                         (o : ClassifierOutcome) :
  appState s = BRUSHING \/ appState s = FINISHED \/ appState s = ERROR ->
  nth_error (inFlight s) i = Some req ->
  step (Settle i o) s
  = setIsAnalyzing false (setInFlight (remove_nth i (inFlight s)) s).
Proof.
  intros Hst Hreq. unfold step. cbn [handle]. rewrite Hreq.
  rewrite settle_sticky by exact Hst.
  now apply commit_unchanged.
Qed.

Lemma step_settle_missing (s : Session) (i : nat) (o : ClassifierOutcome) :
  nth_error (inFlight s) i = None -> step (Settle i o) s = s.
Proof.
  intros Hreq. unfold step. cbn [handle]. rewrite Hreq.
  now apply commit_unchanged.
Qed.

Lemma step_tick_cases (s : Session) :
  appState s = BRUSHING ->
  step TimerTick s = s \/
  step TimerTick s = setBrushingTime (brushingTime s + 1) s \/
  step TimerTick s =
  setIntervalRef false
    (setBrushingTimerRef false
       (setStatusMessage FINISHED_MESSAGE (setAppState FINISHED s))).
Proof.
  intros Hb.
  destruct (brushingTimerRef s) eqn:Hlive.
  - destruct (Z_lt_le_dec (brushingTime s) BRUSHING_REQUIRED_TIME).
    + right; left. now apply tick_counts.
    + right; right. now apply tick_finishes.
  - left. unfold step. cbn [handle]. rewrite Hlive.
    now apply commit_unchanged.
Qed.

(** X10: in BRUSHING a settling classifier call and a firing of the brushing
    timer commute, whatever the call's outcome: the session after both is
    the same in either order, so no answer of the classifier delays, repeats
    or skips a tick of the countdown. *)
Theorem settle_and_tick_commute
  (s : Session) (i : nat) (o : ClassifierOutcome) :
  appState s = BRUSHING ->
  step TimerTick (step (Settle i o) s) = step (Settle i o) (step TimerTick s).
Proof.
  intros Hb.
  destruct (nth_error (inFlight s) i) as [req |] eqn:Hreq.
  - rewrite (step_settle_sticky s i req o) by auto.
    set (s1 := setIsAnalyzing false
                 (setInFlight (remove_nth i (inFlight s)) s)).
    assert (Hb1 : appState s1 = BRUSHING) by exact Hb.
    destruct (brushingTimerRef s) eqn:Hlive.
    + destruct (Z_lt_le_dec (brushingTime s) BRUSHING_REQUIRED_TIME)
        as [Hlt | Hge].
      * rewrite (tick_counts s), (tick_counts s1) by auto.
        rewrite (step_settle_sticky _ i req o) by (cbn; auto).
        reflexivity.
      * rewrite (tick_finishes s), (tick_finishes s1) by auto.
        rewrite (step_settle_sticky _ i req o) by (cbn; auto).
        reflexivity.
    + assert (Hidle : forall s', brushingTimerRef s' = false ->
                                 step TimerTick s' = s').
      { intros s' Hoff. unfold step. cbn [handle]. rewrite Hoff.
        now apply commit_unchanged. }
      rewrite (Hidle s), (Hidle s1) by auto.
      now rewrite (step_settle_sticky s i req o) by auto.
  - rewrite (step_settle_missing s i o) by auto.
    destruct (step_tick_cases s Hb) as [-> | [-> | ->]];
      now rewrite step_settle_missing.
Qed.

Lemma settle_and_tick_commute_witness :
  step TimerTick (step (Settle 0 (Parsed sawToothpaste)) lateInBrushing)
  = step (Settle 0 (Parsed sawToothpaste)) (step TimerTick lateInBrushing).
Proof.
  exact (settle_and_tick_commute lateInBrushing 0 (Parsed sawToothpaste)
                                 eq_refl).
Defined.

(** ** Reaching FINISHED *)

Lemma timerTicks_cons (e : Event) (es : list Event) :
  timerTicks (e :: es)
  = ((if isTimerTick e then 1 else 0) + timerTicks es)%nat.
Proof. unfold timerTicks. cbn. now destruct (isTimerTick e). Qed.

Lemma settlements_cons (e : Event) (es : list Event) :
  settlements (e :: es)
  = ((if isSettle e then 1 else 0) + settlements es)%nat.
Proof. unfold settlements. cbn. now destruct (isSettle e). Qed.

Lemma brushingTime_step_other (e : Event) (s : Session) :
  wellFormed s -> isTimerTick e = false ->
  brushingTime (step e s) <= brushingTime s.
Proof.
  intros Hwf He.
  pose proof (wellFormed_step e s Hwf) as (Hrange' & Hfin' & Hzero' & _).
  pose proof Hwf as (Hrange & Hfin & Hzero & _).
  destruct e as [cam | i o | | | granted]; try discriminate.
  - unfold step. cbn [handle].
    rewrite commit_unchanged
      by (destruct (intervalRef s); auto using appState_analyzeFrame).
    destruct (intervalRef s); [| lia].
    unfold analyzeFrame.
    destruct (appState s); try lia;
      destruct (captureFrame cam) as [img |]; try lia;
      destruct (Js.empty img); cbn; lia.
  - unfold step. cbn [handle].
    destruct (nth_error (inFlight s) i) as [req |];
      [| rewrite commit_unchanged by reflexivity; lia].
    set (s0 := setInFlight (remove_nth i (inFlight s)) s).
    destruct (settle_counter o s0) as (Ht & _).
    change (brushingTime s0) with (brushingTime s) in Ht.
    unfold commit.
    destruct (AppState_eqb (appState s) (appState (settle o s0))); [lia |].
    rewrite <- Ht.
    destruct (settle o s0) as [a ? t ? ? ? ? ?]. cbn in *.
    destruct a; cbn; lia.
  - assert (H0 : brushingTime (step ClickReset s) = 0).
    { unfold step, commit. cbn [handle].
      destruct (AppState_eqb (appState s) (appState (reset s))); reflexivity. }
    lia.
  - assert (H0 : brushingTime (step (Camera granted) s) = 0 \/
                 brushingTime (step (Camera granted) s) = brushingTime s).
    { unfold step, commit. cbn [handle].
      destruct granted; cbn;
        match goal with |- context [AppState_eqb ?a ?b] =>
          destruct (AppState_eqb a b) end; cbn; auto. }
    destruct H0; lia.
Qed.

Lemma tick_bound (s : Session) :
  wellFormed s ->
  brushingTime (step TimerTick s) <= brushingTime s + 1 /\
  (appState (step TimerTick s) <> appState s ->
   BRUSHING_REQUIRED_TIME <= brushingTime s).
Proof.
  intros Hwf.
  destruct (brushingTimerRef s) eqn:Hlive.
  - assert (Hb : appState s = BRUSHING) by now apply Hwf.
    destruct (Z_lt_le_dec (brushingTime s) BRUSHING_REQUIRED_TIME)
      as [Hlt | Hge].
    + rewrite tick_counts by auto. cbn. split; [lia | congruence].
    + rewrite tick_finishes by auto. cbn. split; [lia | auto].
  - assert (Hsame : step TimerTick s = s).
    { unfold step. cbn [handle]. rewrite Hlive. now apply commit_unchanged. }
    rewrite Hsame. split; [lia | congruence].
Qed.

Lemma earned_step (e : Event) (s : Session) (n k : nat) :
  wellFormed s -> earned s n k ->
  earned (step e s)
         ((if isTimerTick e then 1 else 0) + n)
         ((if isSettle e then 1 else 0) + k).
Proof.
  intros Hwf (Htime & Hfin & Hprog).
  assert (Hcounter : brushingTime (step e s)
                     <= Z.of_nat ((if isTimerTick e then 1 else 0) + n)).
  { destruct (isTimerTick e) eqn:He.
    - destruct e; try discriminate.
      destruct (tick_bound s Hwf) as [Hle _]. lia.
    - pose proof (brushingTime_step_other e s Hwf He). cbn. lia. }
  assert (Hdec : appState (step e s) = appState s \/
                 appState (step e s) <> appState s).
  { destruct (appState (step e s)), (appState s);
      ((now left) || (right; congruence)). }
  destruct Hdec as [Hsame | Hmoved].
  - unfold earned. rewrite Hsame. repeat split; auto.
    + intros Hf. specialize (Hfin Hf). lia.
    + lia.
  - pose proof (edge_of_step s e Hwf Hmoved) as Hedge.
    unfold earned. split; [exact Hcounter |].
    remember (appState s) as a eqn:Ha.
    remember (appState (step e s)) as b eqn:Hb.
    destruct Hedge; cbn [isTimerTick isSettle progress] in *;
      try (split; [discriminate | lia]).
    split; [| lia].
    intros _. destruct (tick_bound s Hwf) as [_ Hge].
    rewrite <- Ha, <- Hb in Hge. specialize (Hge ltac:(discriminate)). lia.
Qed.

Lemma earned_run (es : list Event) (s : Session) (n k : nat) :
  wellFormed s -> earned s n k ->
  earned (run es s) (timerTicks es + n) (settlements es + k).
Proof.
  revert s n k. induction es as [| e es IH]; intros s n k Hwf Hearned.
  - exact Hearned.
  - cbn [run]. rewrite timerTicks_cons, settlements_cons.
    replace ((if isTimerTick e then 1 else 0) + timerTicks es + n)%nat
      with (timerTicks es + ((if isTimerTick e then 1 else 0) + n))%nat
      by lia.
    replace ((if isSettle e then 1 else 0) + settlements es + k)%nat
      with (settlements es + ((if isSettle e then 1 else 0) + k))%nat
      by lia.
    apply IH; auto using wellFormed_step, earned_step.
Qed.

(** X12: whatever the events, a run from the mounted component that ends in
    FINISHED contains more than BRUSHING_REQUIRED_TIME firings of the
    brushing timer (at least eleven) and at least two settled classifier
    calls, and no run has a counter above its number of timer firings. *)
Theorem finished_needs_full_countdown (es : list Event) :
  brushingTime (run es mounted) <= Z.of_nat (timerTicks es) /\
  (appState (run es mounted) = FINISHED ->
   (11 <= timerTicks es)%nat /\ (2 <= settlements es)%nat).
Proof.
  assert (Hstart : earned mounted 0 0).
  { unfold earned, BRUSHING_REQUIRED_TIME. cbn.
    repeat split; try lia; congruence. }
  pose proof (earned_run es mounted 0 0 wellFormed_mounted Hstart)
    as (Htime & Hfin & Hprog).
  rewrite !Nat.add_0_r in *.
  split; [exact Htime |].
  intros Hf. specialize (Hfin Hf). rewrite Hf in Hprog. cbn in Hprog.
  unfold BRUSHING_REQUIRED_TIME in Hfin. lia.
Qed.

Lemma finished_needs_full_countdown_witness :
  (11 <= timerTicks (attempt liveCamera 0 sawToothpaste sawBrushInMouth 11))%nat
  /\ (2 <= settlements
             (attempt liveCamera 0 sawToothpaste sawBrushInMouth 11))%nat.
Proof.
  exact (proj2 (finished_needs_full_countdown
                  (attempt liveCamera 0 sawToothpaste sawBrushInMouth 11))
               eq_refl).
Defined.

(** ** An uninterrupted attempt *)

Lemma nth_error_last {A : Type} (l : list A) (x : A) :
  nth_error (l ++ [x]) (List.length l) = Some x.
Proof. induction l as [| y l IH]; cbn; auto. Qed.

Lemma remove_nth_last {A : Type} (l : list A) (x : A) :
  remove_nth (List.length l) (l ++ [x]) = l.
Proof. induction l as [| y l IH]; cbn; auto. now rewrite IH. Qed.

(** A poll that goes out and the settling of that very call. *)
Lemma poll_then_answer
  (cam : FrameSource) (img : string) (result : DetectionResult) (s : Session) :
  intervalRef s = true ->
  appState s = IDLE \/ appState s = APPLYING_TOOTHPASTE ->
  captureFrame cam = Some img -> Js.empty img = false ->
  run [PollTick cam; Settle (List.length (inFlight s)) (Parsed result)] s
  = commit (appState s) (setIsAnalyzing false (handleDetectionResult result s)).
Proof.
  intros Hlive Hst Hcap Himg.
  assert (Hpoll : step (PollTick cam) s
                  = setInFlight (inFlight s ++ [mkRequest (appState s) img])
                                (setIsAnalyzing true s)).
  { unfold step. cbn [handle]. rewrite Hlive.
    rewrite commit_unchanged by apply appState_analyzeFrame.
    unfold analyzeFrame. rewrite Hcap, Himg.
    destruct s as [a an t er m ir br fl]. cbn in Hst.
    destruct Hst; subst a; reflexivity. }
  cbn [run]. rewrite Hpoll. unfold step. cbn [handle inFlight setInFlight].
  rewrite nth_error_last, remove_nth_last.
  cbn [settle appState setInFlight setIsAnalyzing].
  f_equal.
  unfold handleDetectionResult.
  destruct (Js.lt (confidence result) CONFIDENCE_GATE);
    [now destruct s |].
  cbn [appState].
  destruct s as [a an t er m ir br fl]; cbn in *.
  destruct Hst as [-> | ->];
    match goal with |- context [Js.truthy ?b] => destruct (Js.truthy b) end;
    reflexivity.
Qed.

(** X13: from a reachable session in IDLE, with a camera that yields a
    non-empty frame, a poll answered by a result that passes the gate with
    [isApplyingToothpaste], a second poll answered by one that passes it
    with [isBrushInMouth], and eleven firings of the brushing timer end in
    FINISHED with the counter at BRUSHING_REQUIRED_TIME, the completion
    message, both intervals off and the calls that were pending before still
    pending; after ten firings the state is still BRUSHING. *)
Theorem attempt_completes
  (cam : FrameSource) (img : string) (r1 r2 : DetectionResult) (s : Session) :
  reachable s -> appState s = IDLE ->
  captureFrame cam = Some img -> Js.empty img = false ->
  Js.lt (confidence r1) CONFIDENCE_GATE = false ->
  Js.truthy (isApplyingToothpaste r1) = true ->
  Js.lt (confidence r2) CONFIDENCE_GATE = false ->
  Js.truthy (isBrushInMouth r2) = true ->
  run (attempt cam (List.length (inFlight s)) r1 r2 11) s
  = mkSession FINISHED false BRUSHING_REQUIRED_TIME None FINISHED_MESSAGE
              false false (inFlight s) /\
  appState (run (attempt cam (List.length (inFlight s)) r1 r2 10) s)
  = BRUSHING.
Proof.
  intros Hreach Ha Hcap Himg Hg1 Hf1 Hg2 Hf2.
  pose proof (wellFormed_reachable s Hreach) as (_ & _ & _ & _ & Hpoll).
  pose proof (consistent_reachable s Hreach) as (_ & Herr & _).
  assert (Hlive : intervalRef s = true)
    by (apply Hpoll; split; congruence).
  assert (Hnone : error s = None) by (apply Herr; congruence).
  set (n := List.length (inFlight s)).
  set (s1 := mkSession APPLYING_TOOTHPASTE false 0 None TOOTHPASTE_MESSAGE
                       true false (inFlight s)).
  set (s2 := mkSession BRUSHING false 0 None BRUSHING_MESSAGE
                       true true (inFlight s)).
  assert (H1 : run [PollTick cam; Settle n (Parsed r1)] s = s1).
  { unfold n. rewrite (poll_then_answer cam img) by auto.
    unfold handleDetectionResult. rewrite Hg1, Ha, Hf1.
    unfold commit. cbn.
    cbv [setIntervalRef setBrushingTime setBrushingTimerRef setIsAnalyzing
         setAppState setStatusMessage appState isAnalyzing brushingTime
         error statusMessage intervalRef brushingTimerRef inFlight].
    fold (error s) (inFlight s). now rewrite Hnone. }
  assert (H2 : run [PollTick cam; Settle n (Parsed r2)] s1 = s2).
  { change n with (List.length (inFlight s1)).
    rewrite (poll_then_answer cam img) by (cbn; auto).
    unfold handleDetectionResult. rewrite Hg2. cbn. rewrite Hf2.
    reflexivity. }
  assert (Hhalf : forall k,
             run (attempt cam n r1 r2 k) s = run (ticks k) s2).
  { intros k. unfold attempt.
    change ([PollTick cam; Settle n (Parsed r1); PollTick cam;
             Settle n (Parsed r2)] ++ ticks k)%list
      with ([PollTick cam; Settle n (Parsed r1)]
              ++ ([PollTick cam; Settle n (Parsed r2)] ++ ticks k))%list.
    now rewrite run_app, H1, run_app, H2. }
  rewrite !Hhalf. split.
  - change (ticks 11) with (ticks 10 ++ [TimerTick])%list.
    rewrite run_app, run_ticks_counting
      by (cbn; auto; unfold BRUSHING_REQUIRED_TIME; lia).
    cbn [run]. rewrite tick_finishes; cbn; auto.
    unfold BRUSHING_REQUIRED_TIME. lia.
  - rewrite run_ticks_counting
      by (cbn; auto; unfold BRUSHING_REQUIRED_TIME; lia).
    reflexivity.
Qed.

Lemma attempt_completes_witness :
  run (attempt liveCamera (List.length (inFlight onePending))
               sawToothpaste sawBrushInMouth 11) onePending
  = mkSession FINISHED false BRUSHING_REQUIRED_TIME None FINISHED_MESSAGE
              false false (inFlight onePending) /\
  appState (run (attempt liveCamera (List.length (inFlight onePending))
                         sawToothpaste sawBrushInMouth 10) onePending)
  = BRUSHING.
Proof.
  apply (attempt_completes liveCamera "/9j/4AAQSkZJRg"
                           sawToothpaste sawBrushInMouth onePending);
    try reflexivity.
  unfold onePending. apply reachable_run, reach_mounted.
Defined.

(** ** The captured frame *)

Lemma append_snoc (cur : string) (c : ascii) (rest : string) :
  (cur ++ String c EmptyString) ++ rest = cur ++ String c rest.
Proof. induction cur as [| d cur IH]; cbn; auto. now rewrite IH. Qed.

Lemma append_empty_r (s : string) : s ++ "" = s.
Proof. induction s as [| c s IH]; cbn; auto. now rewrite IH. Qed.

Lemma split_aux_no_comma (s cur : string) :
  hasComma s = false -> Js.split_aux "," s cur = [cur ++ s].
Proof.
  revert cur. induction s as [| c s IH]; intros cur Hno; cbn in *.
  - now rewrite append_empty_r.
  - apply orb_false_elim in Hno. destruct Hno as [Hc Hs].
    rewrite Hc, IH by exact Hs. now rewrite append_snoc.
Qed.

Lemma split_aux_first_comma (header rest cur : string) :
  hasComma header = false ->
  Js.split_aux "," (header ++ String "," rest) cur
  = (cur ++ header) :: Js.split_aux "," rest "".
Proof.
  revert cur. induction header as [| c header IH]; intros cur Hno; cbn in *.
  - now rewrite append_empty_r.
  - apply orb_false_elim in Hno. destruct Hno as [Hc Hs].
    rewrite Hc, IH by exact Hs. now rewrite append_snoc.
Qed.

(** X11: when the video and the canvas are there and the canvas gives a 2D
    context, [captureFrame] on a data URL made of a header, a comma and a
    payload, neither containing a comma, returns exactly the payload, the
    header being dropped; on a URL with no comma at all it returns
    nothing. *)
Theorem captureFrame_returns_payload
  (video : Video) (header payload : string) :
  hasComma header = false -> hasComma payload = false ->
  captureFrame (mkFrameSource (Some video)
                  (Some (mkCanvas true (dataURL header payload))))
  = Some payload /\
  captureFrame (mkFrameSource (Some video) (Some (mkCanvas true header)))
  = None.
Proof.
  intros Hh Hp. unfold captureFrame, dataURL, Js.split. cbn.
  rewrite split_aux_first_comma, (split_aux_no_comma payload) by auto.
  rewrite (split_aux_no_comma header) by auto.
  split; reflexivity.
Qed.

Lemma captureFrame_returns_payload_witness :
  captureFrame (mkFrameSource (Some (mkVideo 640 480))
                  (Some (mkCanvas true
                           (dataURL "data:image/jpeg;base64"
                                    "/9j/4AAQSkZJRg"))))
  = Some "/9j/4AAQSkZJRg" /\
  captureFrame (mkFrameSource (Some (mkVideo 640 480))
                  (Some (mkCanvas true "data:image/jpeg;base64")))
  = None.
Proof.
  exact (captureFrame_returns_payload (mkVideo 640 480)
           "data:image/jpeg;base64" "/9j/4AAQSkZJRg" eq_refl eq_refl).
Defined.

(** ** What is rendered *)

Lemma isState_true (a b : AppState) : isState a b = true <-> a = b.
Proof. apply AppState_eqb_eq. Qed.

Lemma isState_false (a b : AppState) : isState a b = false <-> a <> b.
Proof.
  unfold isState. split.
  - intros Hf Heq. apply AppState_eqb_eq in Heq. congruence.
  - intros Hne. destruct (AppState_eqb a b) eqn:Heq; auto.
    apply AppState_eqb_eq in Heq. contradiction.
Qed.

(** X14: when the overlay of remaining seconds is rendered for a reachable
    session, the number shown is between 0 and BRUSHING_REQUIRED_TIME; while
    it is positive a firing of the brushing timer lowers it by exactly one,
    and when it shows 0 the next firing removes the overlay and brings up
    the reward card with the configured content. *)
Theorem remaining_overlay_counts_down (s : Session) (ui : Ui) (r : Z) :
  reachable s ->
  remainingOverlay (render s ui) = Some r ->
  0 <= r <= BRUSHING_REQUIRED_TIME /\
  (0 < r ->
   remainingOverlay (render (step TimerTick s) ui) = Some (r - 1)) /\
  (r = 0 ->
   remainingOverlay (render (step TimerTick s) ui) = None /\
   rewardCard (render (step TimerTick s) ui) = Some (qrContent ui)).
Proof.
  intros Hreach. cbn [render remainingOverlay].
  destruct (isState (appState s) BRUSHING) eqn:Hb; [| discriminate].
  apply isState_true in Hb. intros Hr.
  assert (Hr' : r = BRUSHING_REQUIRED_TIME - brushingTime s) by congruence.
  clear Hr. subst r.
  pose proof (wellFormed_reachable s Hreach) as (Hrange & _ & _ & Htimer & _).
  assert (Hlive : brushingTimerRef s = true) by now apply Htimer.
  split; [lia | split].
  - intros Hpos. rewrite tick_counts by (auto; lia).
    cbn [render remainingOverlay appState brushingTime setBrushingTime].
    rewrite Hb. cbn [isState AppState_eqb]. f_equal. lia.
  - intros H0. rewrite tick_finishes by (auto; lia). cbn. auto.
Qed.

Lemma remaining_overlay_counts_down_witness :
  0 <= 10 <= BRUSHING_REQUIRED_TIME /\
  (0 < 10 ->
   remainingOverlay (render (step TimerTick startedBrushing) initialUi)
   = Some (10 - 1)) /\
  (10 = 0 ->
   remainingOverlay (render (step TimerTick startedBrushing) initialUi)
   = None /\
   rewardCard (render (step TimerTick startedBrushing) initialUi)
   = Some (qrContent initialUi)).
Proof.
  apply (remaining_overlay_counts_down startedBrushing initialUi 10).
  - unfold startedBrushing. apply reachable_run, reach_mounted.
  - reflexivity.
Defined.

(** X15: for a reachable session the error toast with its Retry button is
    rendered exactly in state ERROR and shows the camera message; the reward
    card and the Restart button are rendered exactly in state FINISHED, the
    card with the configured content and beside the completion message; so
    the toast and the reward are never rendered together. *)
Theorem controls_match_state (s : Session) (ui : Ui) :
  reachable s ->
  (appState s = ERROR -> errorToast (render s ui) = Some CAMERA_ERROR) /\
  (appState s <> ERROR -> errorToast (render s ui) = None) /\
  (appState s = FINISHED ->
   rewardCard (render s ui) = Some (qrContent ui) /\
   restartButton (render s ui) = true /\
   statusText (render s ui) = FINISHED_MESSAGE /\
   remainingOverlay (render s ui) = None) /\
  (appState s <> FINISHED ->
   rewardCard (render s ui) = None /\ restartButton (render s ui) = false).
Proof.
  intros Hreach.
  pose proof (consistent_reachable s Hreach)
    as (He1 & He2 & _ & _ & Hm3 & _).
  cbn [render errorToast rewardCard restartButton statusText
       remainingOverlay].
  repeat split.
  - intros Ha. now rewrite (He1 Ha).
  - intros Ha. now rewrite (He2 Ha).
  - now rewrite H.
  - now rewrite H.
  - auto.
  - now rewrite H.
  - apply isState_false in H. now rewrite H.
  - now apply isState_false.
Qed.

Lemma controls_match_state_witness :
  (appState finishedSession = ERROR ->
   errorToast (render finishedSession initialUi) = Some CAMERA_ERROR) /\
  (appState finishedSession <> ERROR ->
   errorToast (render finishedSession initialUi) = None) /\
  (appState finishedSession = FINISHED ->
   rewardCard (render finishedSession initialUi)
   = Some (qrContent initialUi) /\
   restartButton (render finishedSession initialUi) = true /\
   statusText (render finishedSession initialUi) = FINISHED_MESSAGE /\
   remainingOverlay (render finishedSession initialUi) = None) /\
  (appState finishedSession <> FINISHED ->
   rewardCard (render finishedSession initialUi) = None /\
   restartButton (render finishedSession initialUi) = false).
Proof.
  apply (controls_match_state finishedSession initialUi).
  unfold finishedSession, startedBrushing.
  apply reachable_run, reachable_run, reach_mounted.
Defined.

(** X16: the three mission steps are always rendered, in order: the first
    is labelled "Apply Toothpaste", the second "Start Brushing", the third
    "10s Brushing", each with its own description, and a step that is not
    checked shows its number, "01", "02", "03" in that order, while a checked
    one shows the check mark and is struck through.  A step is checked only
    if every earlier one is; all three are checked exactly in FINISHED and
    none in IDLE and ERROR; no step is highlighted in FINISHED and ERROR and
    at least one is in every other state; the first step is both highlighted
    and checked exactly in APPLYING_TOOTHPASTE. *)
Theorem mission_steps_follow_state (s : Session) (ui : Ui) :
  exists v1 v2 v3,
    missionSteps (render s ui) = [v1; v2; v3] /\
    (labelText v1 = "Apply Toothpaste" /\
     labelText v2 = "Start Brushing" /\
     labelText v3 = "10s Brushing") /\
    (descText v1 = "Red & Blue paste on Green & Purple brush" /\
     descText v2 = "Put the brush in your mouth" /\
     descText v3 = "Keep going until the timer ends") /\
    (marker v1 = (if struckThrough v1 then CheckMark else Number "01") /\
     marker v2 = (if struckThrough v2 then CheckMark else Number "02") /\
     marker v3 = (if struckThrough v3 then CheckMark else Number "03")) /\
    (struckThrough v3 = true -> struckThrough v2 = true) /\
    (struckThrough v2 = true -> struckThrough v1 = true) /\
    (struckThrough v3 = true <-> appState s = FINISHED) /\
    (struckThrough v2 = true <-> appState s = FINISHED) /\
    (struckThrough v1 = false <-> appState s = IDLE \/ appState s = ERROR) /\
    (highlighted v1 = true <->
     appState s = IDLE \/ appState s = APPLYING_TOOTHPASTE) /\
    (highlighted v2 = true <->
     appState s = APPLYING_TOOTHPASTE \/ appState s = BRUSHING) /\
    (highlighted v3 = true <-> appState s = BRUSHING) /\
    (highlighted v1 = false /\ highlighted v2 = false /\
     highlighted v3 = false <->
     appState s = FINISHED \/ appState s = ERROR) /\
    (highlighted v1 = true /\ struckThrough v1 = true <->
     appState s = APPLYING_TOOTHPASTE).
Proof.
  cbn [render missionSteps stepProps map].
  do 3 eexists. split; [reflexivity |].
  destruct (appState s); cbn;
    repeat split; intros; try congruence; try discriminate; auto;
    repeat match goal with
           | H : _ /\ _ |- _ => destruct H
           | H : _ \/ _ |- _ => destruct H
           end; try congruence; try discriminate.
Qed.

(** ** The camera stream *)

(** X17: [stopCamera] stops the stream held in [streamRef] and no other: a
    stream is live afterwards exactly when it was live before and is not the
    stored one.  So a stream acquired first and then replaced in the ref by
    a later one stays live after [stopCamera], the later one does not, and
    after a single acquisition with the video element present nothing is
    left live. *)
Theorem stopCamera_stops_stored_stream_only
  (m : Media) (k1 k2 : nat) (videoPresent : bool) :
  k1 <> k2 ->
  (forall k, In k (liveStreams (stopCamera m)) <->
             In k (liveStreams m) /\ streamRef m <> Some k) /\
  In k1 (liveStreams
           (stopCamera (attachStream true k2
                          (attachStream videoPresent k1 m)))) /\
  ~ In k2 (liveStreams
             (stopCamera (attachStream true k2
                            (attachStream videoPresent k1 m)))) /\
  liveStreams (stopCamera (attachStream true k1 noMedia)) = [].
Proof.
  intros Hne.
  assert (Hstop : forall m' k,
             In k (liveStreams (stopCamera m')) <->
             In k (liveStreams m') /\ streamRef m' <> Some k).
  { intros m' k. unfold stopCamera.
    destruct (streamRef m') as [stored |] eqn:Href; cbn.
    - rewrite filter_In. rewrite negb_true_iff, Nat.eqb_neq.
      split; intros [Hin Hk]; split; auto; congruence.
    - split; [intros Hin; split; auto; discriminate | tauto]. }
  split; [apply Hstop | split; [| split]].
  - apply Hstop. split.
    + destruct videoPresent; cbn; auto.
    + cbn. congruence.
  - intros Hin. apply Hstop in Hin. destruct Hin as [_ Hk].
    apply Hk. reflexivity.
  - cbn. now rewrite Nat.eqb_refl.
Qed.

Lemma stopCamera_stops_stored_stream_only_witness :
  In 0%nat (liveStreams
              (stopCamera (attachStream true 1%nat
                             (attachStream true 0%nat noMedia)))) /\
  ~ In 1%nat (liveStreams
                (stopCamera (attachStream true 1%nat
                               (attachStream true 0%nat noMedia)))).
Proof.
  pose (H := stopCamera_stops_stored_stream_only noMedia 0%nat 1%nat true
               ltac:(discriminate)).
  exact (conj (proj1 (proj2 H)) (proj1 (proj2 (proj2 H)))).
Defined.
